(** * Password authentication controllers of solution-cloud

    Shallow embedding of
    [src/Controllers/Passport/User.PassAuth.controller.js]:
    [PassportRegister], [PassportLogIn], [PassportLogOut],
    [ForgotPassword] and [ResetPassword].

    The handlers are [async] functions that read the request, call the
    Sequelize model [User], the session, passport and the mailer, and either
    answer through [res] or throw.  They are embedded as computations in a
    state-and-exception monad over a [World] holding the [users] table, the
    request's session and a trace of the calls made to the collaborators.
    What the collaborators answer (the clock, the random bytes, the passport
    strategy, failures of the session store or of the mailer) is read from an
    [Env] given to each run. *)

From Stdlib Require Import ZArith List String Ascii Bool Lia.
Import ListNotations.

Open Scope string_scope.
Open Scope Z_scope.

Set Warnings "-register-all".

(** ** JavaScript values of the request

    A field of [req.body] is either absent ([undefined], [None]) or a
    string. *)

Definition field := option string.

(** Truthiness of such a value: [undefined] and the empty string are falsy. *)
Definition truthy (v : field) : bool :=
  match v with
  | Some s => negb (s =? "")%string
  | None => false
  end.

(** A field that was not sent, or sent empty. *)
Definition absentOrEmpty (v : field) : Prop := v = None \/ v = Some "".

(** [v || d] with a string default. *)
Definition or_default (v : field) (d : string) : string :=
  match v with
  | Some s => if (s =? "")%string then d else s
  | None => d
  end.

(** JSON data carried by a response body. *)
Inductive json : Type :=
| JNull
| JNum (n : Z)
| JStr (s : string)
| JObj (members : list (string * json)).

(** [has_key k j]: some object inside [j] (at any depth) has a member named
    [k]. *)
Fixpoint has_key (k : string) (j : json) : bool :=
  match j with
  | JObj members =>
      (fix scan (ms : list (string * json)) : bool :=
         match ms with
         | [] => false
         | (name, v) :: rest => (name =? k)%string || has_key k v || scan rest
         end) members
  | _ => false
  end.

(** ** utils/validation.js *)

Module validation.

Definition chars (s : string) : list ascii := list_ascii_of_string s.

Definition code (c : ascii) : N := N_of_ascii c.

Definition between (lo hi : N) (c : ascii) : bool :=
  ((lo <=? code c) && (code c <=? hi))%N.

Definition is_upper : ascii -> bool := between 65 90.
Definition is_lower : ascii -> bool := between 97 122.
Definition is_digit : ascii -> bool := between 48 57.

(** A character that is neither a letter nor a digit. *)
Definition is_special (c : ascii) : bool :=
  negb (is_upper c || is_lower c || is_digit c).

(** Blank characters: space, tab, line feed, carriage return, vertical tab
    and form feed. *)
Definition is_space (c : ascii) : bool :=
  ((code c =? 32) || between 9 13 c)%N.

Definition is_at (c : ascii) : bool := (code c =? 64)%N.
Definition is_dot (c : ascii) : bool := (code c =? 46)%N.

(** Modelled from the spec: [validateRequiredFields] of
    utils/validation.js, which is not part of the sources.  "Required-fields
    check: fails with MissingField when any of a caller-specified field set
    is absent/empty."  The result is the reason (a non-empty string) for
    the first such field, or [None] (a falsy value) when every field is
    present. *)
Fixpoint validateRequiredFields (fields : list (string * field)) : field :=
  match fields with
  | [] => None
  | (name, v) :: rest =>
      if truthy v then validateRequiredFields rest
      else Some (name ++ " is required.")
  end.

(** The part of [cs] up to the first character satisfying [p], and what
    follows that character. *)
Fixpoint split_at (p : ascii -> bool) (cs : list ascii)
  : option (list ascii * list ascii) :=
  match cs with
  | [] => None
  | c :: rest =>
      if p c then Some ([], rest)
      else match split_at p rest with
           | Some (before, after) => Some (c :: before, after)
           | None => None
           end
  end.

Definition plain (cs : list ascii) : bool :=
  forallb (fun c => negb (is_space c || is_at c)) cs.

Definition nonempty (cs : list ascii) : bool :=
  match cs with [] => false | _ => true end.

(** [domain.tld]: some dot has a character before it and one after it. *)
Fixpoint dotted (cs : list ascii) : bool :=
  match cs with
  | _ :: ((d :: _ :: _) as rest) => is_dot d || dotted rest
  | _ => false
  end.

(** Modelled from the spec: [validateEmail] of utils/validation.js, which
    is not part of the sources.  "Email check: fails with InvalidFormat
    unless the string matches a standard local@domain.tld pattern": a
    non-empty local part, one [@], and a domain with a dot inside it, none
    of them holding a blank or another [@].  An absent value fails. *)
Definition validateEmail (email : field) : bool :=
  match email with
  | Some s =>
      match split_at is_at (chars s) with
      | Some (local, domain) =>
          nonempty local && plain local && plain domain && dotted domain
      | None => false
      end
  | None => false
  end.

(** Modelled from the spec: [validatePassword] of utils/validation.js,
    which is not part of the sources.  "Password check: fails with
    WeakPassword unless length >= 6 AND contains at least one uppercase
    letter, one lowercase letter, one digit, one special character."  An
    absent value fails. *)
Definition validatePassword (password : field) : bool :=
  match password with
  | Some s =>
      let cs := chars s in
      (6 <=? Z.of_nat (List.length cs))
      && existsb is_upper cs && existsb is_lower cs
      && existsb is_digit cs && existsb is_special cs
  | None => false
  end.

(** Modelled from the spec: [validatePhoneNumber] of utils/validation.js,
    which is not part of the sources.  "Phone check: fails with
    InvalidFormat unless it matches +91 followed by exactly 10 digits."  An
    absent value fails. *)
Definition validatePhoneNumber (phoneNumber : field) : bool :=
  match phoneNumber with
  | Some s =>
      match chars s with
      | p :: n :: o :: digits =>
          (code p =? 43)%N && (code n =? 57)%N && (code o =? 49)%N
          && (Z.of_nat (List.length digits) =? 10)
          && forallb is_digit digits
      | _ => false
      end
  | None => false
  end.

End validation.
Import validation.


(** ** The [users] table (model [User] of db/server.db.js) *)

Module User.

(** Modelled from the spec: the model [User] of db/server.db.js, which is not
    part of the sources.  "Attributes: unique identifier, email, password,
    role, phone number, reset token (nullable opaque string), token
    expiration (nullable timestamp)", under the names the controller uses.
    [password] is the value the model keeps for the password handed to
    [create] or [update]; the expiration is a time in milliseconds. *)
Record t : Type := make {
  userid : Z;
  email : string;
  password : string;
  role : string;
  phoneNumber : string;
  resetToken : option string;
  tokenExpiration : option Z
}.

Definition nullable {A} (inj : A -> json) (v : option A) : json :=
  match v with Some a => inj a | None => JNull end.

(** The attributes of a row, by name. *)
Definition attributes (u : t) : list (string * json) :=
  [ ("userid", JNum (userid u));
    ("email", JStr (email u));
    ("password", JStr (password u));
    ("role", JStr (role u));
    ("phoneNumber", JStr (phoneNumber u));
    ("resetToken", nullable JStr (resetToken u));
    ("tokenExpiration", nullable JNum (tokenExpiration u)) ].

(** [attributes: { exclude: [...] }]: the row read without the named
    attributes. *)
Definition project (exclude : list string) (u : t) : json :=
  JObj (filter (fun a => negb (existsb (String.eqb (fst a)) exclude))
               (attributes u)).

(** The fields [update] can be given; [None] leaves the column as it is,
    [Some v] writes [v] (so [Some None] writes [null]). *)
Record changes : Type := set {
  set_password : option string;
  set_resetToken : option (option string);
  set_tokenExpiration : option (option Z)
}.

Definition write {A} (c : option A) (old : A) : A :=
  match c with Some v => v | None => old end.

Definition apply (c : changes) (u : t) : t :=
  {| userid := userid u;
     email := email u;
     password := write (set_password c) (password u);
     role := role u;
     phoneNumber := phoneNumber u;
     resetToken := write (set_resetToken c) (resetToken u);
     tokenExpiration := write (set_tokenExpiration c) (tokenExpiration u) |}.

End User.

(** [where] clauses used by the controller. *)
Inductive where_clause : Type :=
| WhereEmail (email : string)
| WhereResetToken (resetToken : string) (tokenExpiration_gt : Z).

Definition matches (w : where_clause) (u : User.t) : bool :=
  match w with
  | WhereEmail e => (User.email u =? e)%string
  | WhereResetToken tok now =>
      match User.resetToken u, User.tokenExpiration u with
      | Some t, Some e => (t =? tok)%string && (now <? e)
      | _, _ => false
      end
  end.

(** ** Sessions, cookies and responses *)

(** [req.session]: the identifier bound by the application and the user
    passport logged in. *)
Record Session : Type := {
  userId : option Z;
  passportUser : option json
}.

Definition emptySession : Session := {| userId := None; passportUser := None |}.

Record CookieOptions : Type := {
  httpOnly : option bool;
  sameSite : option string;
  secure : option bool
}.

Inductive CookieOp : Type :=
| SetCookie (name : string) (value : json) (options : CookieOptions)
| ClearCookie (name : string) (options : CookieOptions).

(** Modelled from the spec: [ApiResponse] of utils/ApiResponse.js, which is
    not part of the sources.  "Every outcome is wrapped as {statusCode, data,
    message}": [new ApiResponse(statusCode, data, message)]. *)
Record ApiResponse : Type := {
  statusCode : Z;
  data : json;
  message : string
}.

(** What was sent through [res]: the status, the cookie headers and the JSON
    body. *)
Record Response : Type := {
  status : Z;
  cookies : list CookieOp;
  body : ApiResponse
}.

(** Modelled from the spec: [ApiError] of utils/ApiError.js, which is not
    part of the sources.  "Errors are wrapped as {statusCode, message}":
    [new ApiError(statusCode, message)].  A handler can also let through the
    error of a collaborator; [asyncHandler] hands either to the error
    middleware. *)
Inductive Thrown : Type :=
| ApiError (statusCode : Z) (message : field)
| Error (message : string).

(** ** Requests *)

Record Body : Type := {
  body_email : field;
  body_password : field;
  body_role : field;
  body_phoneNumber : field;
  body_newPassword : field
}.

Record Request : Type := {
  req_body : Body;
  params_token : string;
  protocol : string;
  host : string
}.

(** ** The collaborators *)

(** What the callback of [passport.authenticate] receives:
    [(err, user, info)].  The [info] of a refusal is taken to be a text, or
    absent. *)
Inductive AuthOutcome : Type :=
| AuthError (err : string)
| AuthInvalid (info : field)
| AuthSuccess (user : User.t).

Record Env : Type := {
  (** [Date.now()] *)
  now : Z;
  (** the bytes [crypto.randomBytes] draws, by position *)
  entropy : nat -> Byte.byte;
  (** the local strategy of db/passport.js, run on the table with the
      submitted email and password *)
  localStrategy : list User.t -> string -> string -> AuthOutcome;
  (** [User.create] answered with a row *)
  createPersists : bool;
  (** failure of [setSessionForUser], of [req.login], of
      [req.session.destroy] and of [sendResetEmail] *)
  sessionError : option string;
  loginError : option string;
  destroyError : option string;
  mailError : option string
}.

(** Calls made to the collaborators, oldest first. *)
Inductive Call : Type :=
| StoreFindOne (w : where_clause)
| StoreCreate (email : string)
| StoreUpdate (userid : Z)
| Authenticate (email password : string)
| SessionBind (userid : Z)
| SessionLogin
| SessionDestroy
| SendMail (to : field) (url : string).

Record World : Type := {
  users : list User.t;
  nextId : Z;
  session : Session;
  calls : list Call
}.

(** ** The monad of handlers: state and exceptions

    A thrown error keeps the state reached so far: nothing is rolled back. *)

Inductive Result (A : Type) : Type :=
| Returned (a : A)
| Threw (e : Thrown).
Arguments Returned {A} a.
Arguments Threw {A} e.

Definition M (A : Type) : Type := World -> World * Result A.

Definition ret {A} (a : A) : M A := fun w => (w, Returned a).

Definition throw {A} (e : Thrown) : M A := fun w => (w, Threw e).

Definition bind {A B} (m : M A) (k : A -> M B) : M B :=
  fun w =>
    match m w with
    | (w', Returned a) => k a w'
    | (w', Threw e) => (w', Threw e)
    end.

Declare Scope handler_scope.
Delimit Scope handler_scope with handler.
Notation "x <- m ;; k" := (bind m (fun x => k))
  (at level 100, m at next level, right associativity) : handler_scope.
Notation "m ;; k" := (bind m (fun _ => k))
  (at level 100, right associativity) : handler_scope.
Open Scope handler_scope.

(** The world after some more calls were traced. *)
Definition logged (cs : list Call) (w : World) : World :=
  {| users := users w; nextId := nextId w; session := session w;
     calls := calls w ++ cs |}.

Definition call (c : Call) : M unit := fun w => (logged [c] w, Returned tt).

Definition setUsers (us : list User.t) (fresh : Z) : M unit :=
  fun w => ({| users := us; nextId := fresh; session := session w;
               calls := calls w |}, Returned tt).

Definition setSession (s : Session) : M unit :=
  fun w => ({| users := users w; nextId := nextId w; session := s;
               calls := calls w |}, Returned tt).

Definition getUsers : M (list User.t) := fun w => (w, Returned (users w)).
Definition getNextId : M Z := fun w => (w, Returned (nextId w)).
Definition getSession : M Session := fun w => (w, Returned (session w)).

(** [if (c) throw e;] *)
Definition throwIf (c : bool) (e : Thrown) : M unit :=
  if c then throw e else ret tt.

(** [for (const x of xs) body(x)] *)
Fixpoint forOf {A} (xs : list A) (body : A -> M unit) : M unit :=
  match xs with
  | [] => ret tt
  | x :: rest => body x ;; forOf rest body
  end.

(** ** Sequelize calls *)

(** [User.findOne({ where })]: the first row matching.  The store is taken
    to answer every query; a query it rejects is not part of these runs. *)
Definition findOne (w : where_clause) : M (option User.t) :=
  call (StoreFindOne w) ;;
  us <- getUsers ;;
  ret (find (matches w) us).

(** [User.findOne({ where: { email } })]; Sequelize rejects an [undefined]
    value in a where clause. *)
Definition findOneByEmail (email : field) : M (option User.t) :=
  match email with
  | Some e => findOne (WhereEmail e)
  | None => throw (Error "WHERE parameter email has invalid undefined value")
  end.

(** The JSON of an instance read with some attributes excluded; [null] when
    no row was found. *)
Definition projected (exclude : list string) (u : option User.t) : json :=
  match u with
  | Some u => User.project exclude u
  | None => JNull
  end.

(** [User.create({ email, password, role, phoneNumber })]: appends a row
    with a fresh identifier and no reset token.  The columns cannot be left
    [undefined].  [createPersists] says whether the call answers with a row
    (the controller tests it); a call the store rejects is not part of these
    runs.  The [password] of the row stands for what the model was handed,
    which it hashes before storing. *)
Definition create (env : Env) (email password role phoneNumber : field)
  : M (option User.t) :=
  match email, password, role, phoneNumber with
  | Some e, Some p, Some r, Some ph =>
      call (StoreCreate e) ;;
      if createPersists env then
        us <- getUsers ;;
        id <- getNextId ;;
        let user := User.make id e p r ph None None in
        setUsers (us ++ [user]) (id + 1) ;;
        ret (Some user)
      else ret None
  | _, _, _, _ => throw (Error "notNull Violation")
  end.

(** [user.update(changes)]: writes the changes to the row of [user] (the
    rows with its identifier) and answers the updated instance.  As for
    [create], the store is taken to answer, and a [password] written stands
    for what the model was handed. *)
Definition updateRows (id : Z) (c : User.changes) (us : list User.t)
  : list User.t :=
  map (fun u => if User.userid u =? id then User.apply c u else u) us.

Definition update (user : User.t) (c : User.changes) : M User.t :=
  call (StoreUpdate (User.userid user)) ;;
  us <- getUsers ;;
  fresh <- getNextId ;;
  setUsers (updateRows (User.userid user) c us) fresh ;;
  ret (User.apply c user).

(** ** Session and passport *)

(** Modelled from the spec: [setSessionForUser] of
    Middlewares/AuthMiddleware/Session.midleware.js, which is not part of the
    sources.  "Session capability: bind(requestContext, userId) ->
    Result<void>": binds the identifier into the session, or fails. *)
Definition setSessionForUser (env : Env) (userid : Z) : M unit :=
  call (SessionBind userid) ;;
  match sessionError env with
  | Some e => throw (Error e)
  | None =>
      s <- getSession ;;
      setSession {| userId := Some userid; passportUser := passportUser s |}
  end.

(** [req.login(user, cb)] wrapped in a promise: rejects with the error
    passed to the callback.  The session is taken to keep the user it was
    handed; what [serializeUser] makes of it is not modelled. *)
Definition login (env : Env) (user : json) : M unit :=
  call SessionLogin ;;
  match loginError env with
  | Some e => throw (Error e)
  | None =>
      s <- getSession ;;
      setSession {| userId := userId s; passportUser := Some user |}
  end.

(** [passport.authenticate('local', cb)(req, res, next)]: runs the strategy
    on the submitted credentials and hands its verdict to the callback.
    passport-local fails with "Missing credentials" when one is absent. *)
Definition authenticate (env : Env) (email password : field) : M AuthOutcome :=
  match email, password with
  | Some e, Some p =>
      call (Authenticate e p) ;;
      us <- getUsers ;;
      ret (localStrategy env us e p)
  | _, _ => ret (AuthInvalid (Some "Missing credentials"))
  end.

(** [req.session.destroy(cb)]: the callback receives the error, if any. *)
Definition destroy (env : Env) : M (option string) :=
  call SessionDestroy ;;
  match destroyError env with
  | Some e => ret (Some e)
  | None => setSession emptySession ;; ret None
  end.

(** Modelled from the spec: [sendResetEmail] of utils/EmailSend.js, which is
    not part of the sources.  "Notification capability: sendResetEmail(email,
    url) -> Result<void>"; "its failure must propagate as an error since the
    workflow awaits it". *)
Definition sendResetEmail (env : Env) (email : field) (resetUrl : string)
  : M unit :=
  call (SendMail email resetUrl) ;;
  match mailError env with
  | Some e => throw (Error e)
  | None => ret tt
  end.

(** ** crypto *)

Definition hexDigit (n : N) : ascii :=
  nth (N.to_nat n) (chars "0123456789abcdef") "0"%char.

Definition hexOfByte (b : Byte.byte) : list ascii :=
  let n := Byte.to_N b in [hexDigit (n / 16)%N; hexDigit (n mod 16)%N].

(** [buffer.toString("hex")] *)
Definition toHex (bs : list Byte.byte) : string :=
  string_of_list_ascii (flat_map hexOfByte bs).

(** [crypto.randomBytes(n)] *)
Definition randomBytes (env : Env) (n : nat) : list Byte.byte :=
  map (entropy env) (seq 0 n).

Definition is_hex (c : ascii) : bool :=
  is_digit c || between 97 102 c.

(** Reading hex back: the value of a hex digit, and the byte written by two
    of them.  The controller never decodes a token; this is used to show
    that the token determines the bytes drawn. *)
Definition hexValue (c : ascii) : N :=
  (if is_digit c then code c - 48 else code c - 87)%N.

Definition byteOfHex (cs : list ascii) : option Byte.byte :=
  match cs with
  | [high; low] => Byte.of_N (16 * hexValue high + hexValue low)%N
  | _ => None
  end.

(** ** The controller *)

Definition allowedRoles : list string := ["admin"; "user"].

(** [allowedRoles.includes(role)] *)
Definition includes (xs : list string) (v : field) : bool :=
  match v with
  | Some s => existsb (String.eqb s) xs
  | None => false
  end.

Definition weakPasswordMessage : string :=
  "Password must be at least 6 characters long, include uppercase and lowercase letters, a number, and a special character.".

Definition respond (code : Z) (cs : list CookieOp) (b : ApiResponse) : Response :=
  {| status := code; cookies := cs; body := b |}.

Definition PassportRegister (env : Env) (req : Request) : M Response :=
  let email := body_email (req_body req) in
  let password := body_password (req_body req) in
  let role := body_role (req_body req) in
  let phoneNumber := body_phoneNumber (req_body req) in
  let requiredFieldErrors :=
    validateRequiredFields
      [("email", email); ("password", password); ("phoneNumber", phoneNumber)] in
  let validationChecks :=
    [ (negb (truthy requiredFieldErrors), requiredFieldErrors);
      (validateEmail email, Some "Invalid email format.");
      (validatePassword password, Some weakPasswordMessage);
      (validatePhoneNumber phoneNumber,
       Some "Phone number must be in the format +91 followed by 10 digits.") ] in
  forOf validationChecks
    (fun '(isValid, error) => throwIf (negb isValid) (ApiError 400 error)) ;;
  existingUser <- findOneByEmail email ;;
  throwIf (match existingUser with Some _ => true | None => false end)
    (ApiError 409 (Some "User already exists.")) ;;
  let userRole := if includes allowedRoles role then role else Some "user" in
  created <- create env email password userRole phoneNumber ;;
  match created with
  | None => throw (ApiError 500 (Some "Error while creating user."))
  | Some user =>
      setSessionForUser env (User.userid user) ;;
      found <- findOneByEmail email ;;
      let createdUser := projected ["password"] found in
      ret (respond 201 []
             {| statusCode := 201; data := createdUser;
                message := "User registered successfully." |})
  end.

(** The callback given to [passport.authenticate]; [next(err)] hands the
    error to the error middleware, like a throw of the handler. *)
Definition loginCallback (env : Env) (outcome : AuthOutcome) : M Response :=
  match outcome with
  | AuthError err => throw (Error err)
  | AuthInvalid info =>
      ret (respond 401 []
             {| statusCode := 401; data := JObj [];
                message := or_default info "Invalid login credentials." |})
  | AuthSuccess user =>
      setSessionForUser env (User.userid user) ;;
      found <- findOne (WhereEmail (User.email user)) ;;
      throwIf (match found with Some _ => false | None => true end)
        (ApiError 404 (Some "User not found.")) ;;
      let sanitizedUser := projected ["password"] found in
      login env sanitizedUser ;;
      let options :=
        {| httpOnly := Some true; sameSite := Some "strict"; secure := None |} in
      s <- getSession ;;
      setSession {| userId := Some (User.userid user);
                    passportUser := passportUser s |} ;;
      ret (respond 200
             [SetCookie "session_cookie" (JNum (User.userid user)) options]
             {| statusCode := 200; data := JObj [("user", sanitizedUser)];
                message := "Login successful" |})
  end.

Definition PassportLogIn (env : Env) (req : Request) : M Response :=
  let email := body_email (req_body req) in
  let password := body_password (req_body req) in
  let requiredFieldErrors :=
    validateRequiredFields [("email", email); ("password", password)] in
  let validationChecks :=
    [ (negb (truthy requiredFieldErrors),
       ApiError 400
         (Some (or_default requiredFieldErrors "Email and password are required.")));
      (validateEmail email, ApiError 400 (Some "Invalid email format."));
      (validatePassword password, ApiError 400 (Some weakPasswordMessage)) ] in
  forOf validationChecks
    (fun '(isValid, error) => throwIf (negb isValid) error) ;;
  outcome <- authenticate env email password ;;
  loginCallback env outcome.

Definition PassportLogOut (env : Env) (req : Request) : M Response :=
  err <- destroy env ;;
  match err with
  | Some _ =>
      ret (respond 500 []
             {| statusCode := 500; data := JObj [];
                message := "Failed to log out" |})
  | None =>
      let options :=
        {| httpOnly := Some true; sameSite := None; secure := Some true |} in
      ret (respond 200 [ClearCookie "connect.sid" options]
             {| statusCode := 200; data := JObj [];
                message := "User logged out successfully" |})
  end.

Definition ForgotPassword (env : Env) (req : Request) : M Response :=
  let email := body_email (req_body req) in
  throwIf (negb (validateEmail email))
    (ApiError 400 (Some "Invalid email format.")) ;;
  found <- findOneByEmail email ;;
  match found with
  | None => throw (ApiError 404 (Some "User with this email does not exist."))
  | Some user =>
      let resetToken := toHex (randomBytes env 3) in
      let tokenExpiration := now env + 3600000 in
      update user
        {| User.set_password := None;
           User.set_resetToken := Some (Some resetToken);
           User.set_tokenExpiration := Some (Some tokenExpiration) |} ;;
      let resetUrl :=
        protocol req ++ "://" ++ host req ++ "/verifyEmail/" ++ resetToken in
      sendResetEmail env email resetUrl ;;
      ret (respond 200 []
             {| statusCode := 200; data := JObj [];
                message := "Password reset email sent successfully." |})
  end.

Definition ResetPassword (env : Env) (req : Request) : M Response :=
  let newPassword := body_newPassword (req_body req) in
  let token := params_token req in
  throwIf (negb (validatePassword newPassword))
    (ApiError 400 (Some weakPasswordMessage)) ;;
  found <- findOne (WhereResetToken token (now env)) ;;
  match found with
  | None => throw (ApiError 400 (Some "Invalid or expired reset token."))
  | Some user =>
      update user
        {| User.set_password := newPassword;
           User.set_resetToken := Some None;
           User.set_tokenExpiration := Some None |} ;;
      ret (respond 200 []
             {| statusCode := 200; data := JObj [];
                message := "Password reset successfully" |})
  end.

(** ** Runs of the service *)

Inductive Handler : Type := Register | LogIn | LogOut | Forgot | Reset.

Definition handle (h : Handler) : Env -> Request -> M Response :=
  match h with
  | Register => PassportRegister
  | LogIn => PassportLogIn
  | LogOut => PassportLogOut
  | Forgot => ForgotPassword
  | Reset => ResetPassword
  end.

Definition initialWorld : World :=
  {| users := []; nextId := 1; session := emptySession; calls := [] |}.

(** The worlds the service can be in when requests are handled one at a
    time, each to its end: the empty table, then any request to any handler,
    whatever the collaborators answer.  Two handlers interleaved at their
    [await]s are not among these runs. *)
Inductive reachable : World -> Prop :=
| reachable_initial : reachable initialWorld
| reachable_handle (h : Handler) (env : Env) (req : Request) (w : World) :
    reachable w -> reachable (fst (handle h env req w)).

(** ** The local strategy

    Modelled from the spec: the local strategy of db/passport.js, which is
    not part of the sources.  "Delegate credential verification to the
    authentication capability, which performs hash comparison against the
    stored password and returns a typed outcome distinguishing {system error,
    invalid credentials, success(user)}"; "verify(email, password) -> {Error}
    | {Invalid, reason} | {Success, user}"; "Unauthorized (401: bad
    credentials -- message is generic, never field-specific)".  [failure] is
    the system error, if there is one, [accepts] the comparison of the
    submitted password with what the row keeps, and [reason] the one reason
    given for invalid credentials. *)
Definition verify (failure : option string)
    (accepts : User.t -> string -> bool) (reason : field)
    (us : list User.t) (email password : string) : AuthOutcome :=
  match failure with
  | Some err => AuthError err
  | None =>
      match find (matches (WhereEmail email)) us with
      | Some user =>
          if accepts user password then AuthSuccess user
          else AuthInvalid reason
      | None => AuthInvalid reason
      end
  end.

(** ** Sample requests and collaborators *)

(** A local strategy that compares the submitted password with the one kept
    in the row, and says which of the two checks failed. *)
Definition tellingStrategy (us : list User.t) (e p : string) : AuthOutcome :=
  match find (matches (WhereEmail e)) us with
  | None => AuthInvalid (Some "Incorrect email.")
  | Some u =>
      if (User.password u =? p)%string then AuthSuccess u
      else AuthInvalid (Some "Incorrect password.")
  end.

Definition sampleEntropy (i : nat) : Byte.byte :=
  match i with
  | O => Byte.xa1
  | S O => Byte.x0b
  | _ => Byte.xc3
  end.

(** A strategy as the spec describes it, comparing with the password kept. *)
Definition genericStrategy : Env :=
  {| now := 300; entropy := sampleEntropy;
     localStrategy :=
       verify None (fun u p => (User.password u =? p)%string)
         (Some "Invalid email or password.");
     createPersists := true; sessionError := None; loginError := None;
     destroyError := None; mailError := None |}.

Definition envAt (t : Z) : Env :=
  {| now := t; entropy := sampleEntropy; localStrategy := tellingStrategy;
     createPersists := true; sessionError := None; loginError := None;
     destroyError := None; mailError := None |}.

(** The same, with a session store that fails to destroy. *)
Definition failingDestroy : Env :=
  {| now := 300; entropy := sampleEntropy; localStrategy := tellingStrategy;
     createPersists := true; sessionError := None; loginError := None;
     destroyError := Some "store unavailable"; mailError := None |}.

Definition request (b : Body) (token : string) : Request :=
  {| req_body := b; params_token := token; protocol := "https";
     host := "example.org" |}.

Definition credentials (e p : string) : Body :=
  {| body_email := Some e; body_password := Some p; body_role := None;
     body_phoneNumber := Some "+919876543210"; body_newPassword := None |}.

Definition newPasswordBody (p : string) : Body :=
  {| body_email := None; body_password := None; body_role := None;
     body_phoneNumber := None; body_newPassword := Some p |}.

(** [a@b.com] and [c@d.org] registered. *)
Definition twoUsers : World :=
  fst (PassportRegister (envAt 200) (request (credentials "c@d.org" "Efgh2?") "")
         (fst (PassportRegister (envAt 100)
                 (request (credentials "a@b.com" "Abcd1!") "") initialWorld))).

Definition registerAlice : Request :=
  request (credentials "a@b.com" "Abcd1!") "".

Definition loginAlice : Request := registerAlice.

(** The right email with a wrong (but strong) password, and an email nobody
    registered. *)
Definition wrongPassword : Request :=
  request (credentials "a@b.com" "Abcd1?") "".

Definition unknownEmail : Request :=
  request (credentials "x@y.com" "Abcd1?") "".

(** Registrations that fail one check each. *)
Definition noEmail : Request :=
  request {| body_email := None; body_password := Some "Abcd1!";
             body_role := None; body_phoneNumber := Some "+919876543210";
             body_newPassword := None |} "".

Definition badEmail : Request := request (credentials "ab.com" "Abcd1!") "".

Definition weakPassword : Request := request (credentials "a@b.com" "abcdef") "".

Definition badPhone : Request :=
  request {| body_email := Some "e@f.net"; body_password := Some "Abcd1!";
             body_role := Some "root"; body_phoneNumber := Some "12345";
             body_newPassword := None |} "".

Definition registerEve : Request :=
  request {| body_email := Some "e@f.net"; body_password := Some "Abcd1!";
             body_role := Some "root"; body_phoneNumber := Some "+919876543210";
             body_newPassword := None |} "".

(** [a@b.com] asked for a reset at time 1000: the token is [a10bc3]. *)
Definition pendingReset : World :=
  fst (ForgotPassword (envAt 1000) registerAlice twoUsers).

(** Then [c@d.org] asked for one at time 2000, and the same three bytes were
    drawn. *)
Definition bothPending : World :=
  fst (ForgotPassword (envAt 2000)
         (request (credentials "c@d.org" "Efgh2?") "") pendingReset).

Definition resetRequest : Request := request (newPasswordBody "Newp1!") "a10bc3".

(** ** Notions used to state the properties *)

(** Every check of [PassportRegister] holds. *)
Definition registrationValid (b : Body) : bool :=
  negb (truthy (validateRequiredFields
                  [("email", body_email b); ("password", body_password b);
                   ("phoneNumber", body_phoneNumber b)]))
  && validateEmail (body_email b)
  && validatePassword (body_password b)
  && validatePhoneNumber (body_phoneNumber b).

(** Every check of [PassportLogIn] holds. *)
Definition credentialsValid (b : Body) : bool :=
  negb (truthy (validateRequiredFields
                  [("email", body_email b); ("password", body_password b)]))
  && validateEmail (body_email b)
  && validatePassword (body_password b).

(** The role [PassportRegister] hands to [User.create]. *)
Definition userRoleOf (role : field) : string :=
  match (if includes allowedRoles role then role else Some "user") with
  | Some r => r
  | None => "user"
  end.

(** The rows with a given email. *)
Definition withEmail (e : string) (us : list User.t) : list User.t :=
  filter (matches (WhereEmail e)) us.

(** The world after a registration went through: the new row, the session
    bound to it, and the four calls made. *)
Definition registered (e p r ph : string) (w : World) : World :=
  {| users := users w ++ [User.make (nextId w) e p r ph None None];
     nextId := nextId w + 1;
     session := {| userId := Some (nextId w);
                   passportUser := passportUser (session w) |};
     calls := calls w ++ [StoreFindOne (WhereEmail e); StoreCreate e;
                          SessionBind (nextId w);
                          StoreFindOne (WhereEmail e)] |}.

(** The changes [ForgotPassword] and [ResetPassword] write. *)
Definition tokenIssued (token : string) (expiration : Z) : User.changes :=
  {| User.set_password := None;
     User.set_resetToken := Some (Some token);
     User.set_tokenExpiration := Some (Some expiration) |}.

Definition passwordReset (newPassword : field) : User.changes :=
  {| User.set_password := newPassword;
     User.set_resetToken := Some None;
     User.set_tokenExpiration := Some None |}.

(** Every row carrying [token] is a row of the user [id]. *)
Definition ownedBy (token : string) (id : Z) (us : list User.t) : Prop :=
  forall v, In v us -> User.resetToken v = Some token -> User.userid v = id.

(** The rows carrying [token] all belong to one user. *)
Definition singleOwner (token : string) (us : list User.t) : Prop :=
  exists id, ownedBy token id us.

(** The role of a row is one of the allowed roles. *)
Definition roleAllowed (u : User.t) : Prop := In (User.role u) allowedRoles.

(** Calls that write to the [users] table. *)
Definition is_store_write (c : Call) : bool :=
  match c with
  | StoreCreate _ | StoreUpdate _ => true
  | _ => false
  end.

(** What identifies a user and is set once, at registration. *)
Definition identityOf (u : User.t) : Z * string * string * string :=
  (User.userid u, User.email u, User.role u, User.phoneNumber u).

(** The token and its expiration are both set or both null, and a token is
    six hex digits. *)
Definition tokenWellFormed (u : User.t) : Prop :=
  match User.resetToken u, User.tokenExpiration u with
  | Some token, Some _ =>
      String.length token = 6%nat /\ forallb is_hex (chars token) = true
  | None, None => True
  | _, _ => False
  end.

(** The email and the phone number of a row pass the checks of the
    controller. *)
Definition fieldsValid (u : User.t) : Prop :=
  validateEmail (Some (User.email u)) = true
  /\ validatePhoneNumber (Some (User.phoneNumber u)) = true.

(** A session store that fails to bind, and a mailer that fails. *)
Definition failingSession : Env :=
  {| now := 300; entropy := sampleEntropy; localStrategy := tellingStrategy;
     createPersists := true; sessionError := Some "session store unavailable";
     loginError := None; destroyError := None; mailError := None |}.

Definition failingMail : Env :=
  {| now := 1000; entropy := sampleEntropy; localStrategy := tellingStrategy;
     createPersists := true; sessionError := None; loginError := None;
     destroyError := None; mailError := Some "smtp unavailable" |}.

(** A strategy that fails, one that accepts a user whose row is gone, and a
    passport whose [req.login] fails. *)
Definition brokenStrategy : Env :=
  {| now := 300; entropy := sampleEntropy;
     localStrategy := fun _ _ _ => AuthError "database unavailable";
     createPersists := true; sessionError := None; loginError := None;
     destroyError := None; mailError := None |}.

Definition staleStrategy : Env :=
  {| now := 300; entropy := sampleEntropy;
     localStrategy := fun _ _ _ =>
       AuthSuccess (User.make 9 "gone@b.com" "Abcd1!" "user" "+919876543210"
                      None None);
     createPersists := true; sessionError := None; loginError := None;
     destroyError := None; mailError := None |}.

Definition failingLogin : Env :=
  {| now := 300; entropy := sampleEntropy; localStrategy := tellingStrategy;
     createPersists := true; sessionError := None;
     loginError := Some "serialization failed";
     destroyError := None; mailError := None |}.

(** * Properties *)

(** ** The validators on sample values *)

Example validateEmail_ok : validateEmail (Some "a@b.com") = true.
Proof. reflexivity. Qed.
Example validateEmail_no_at : validateEmail (Some "ab.com") = false.
Proof. reflexivity. Qed.
Example validateEmail_no_tld : validateEmail (Some "a@bcom.") = false.
Proof. reflexivity. Qed.
Example validatePassword_ok : validatePassword (Some "Abcd1!") = true.
Proof. reflexivity. Qed.
Example validatePassword_short : validatePassword (Some "Ab1!") = false.
Proof. reflexivity. Qed.
Example validatePassword_plain : validatePassword (Some "abcdefgh") = false.
Proof. reflexivity. Qed.
Example validatePhoneNumber_ok : validatePhoneNumber (Some "+919876543210") = true.
Proof. reflexivity. Qed.
Example validatePhoneNumber_short : validatePhoneNumber (Some "+91987654321") = false.
Proof. reflexivity. Qed.
Example validateRequiredFields_example :
  validateRequiredFields [("email", Some "a@b.com"); ("password", None)]
  = Some "password is required.".
Proof. reflexivity. Qed.

(** ** Validators and the checking loop *)

Lemma truthy_false (v : field) : truthy v = false <-> absentOrEmpty v.
Proof.
  unfold absentOrEmpty; destruct v as [s|]; simpl.
  - rewrite negb_false_iff, String.eqb_eq. split.
    + intros ->. now right.
    + intros [H|H]; congruence.
  - split; auto.
Qed.

(** A reported reason is a non-empty string, hence truthy. *)
Lemma validateRequiredFields_truthy fields reason :
  validateRequiredFields fields = Some reason -> truthy (Some reason) = true.
Proof.
  induction fields as [|[name v] rest IH]; simpl; [discriminate|].
  destruct (truthy v); [exact IH|].
  intros [= <-]. destruct name; reflexivity.
Qed.

Lemma validateRequiredFields_missing fields name v :
  In (name, v) fields -> absentOrEmpty v ->
  exists reason, validateRequiredFields fields = Some reason.
Proof.
  intros Hin Hv. apply truthy_false in Hv.
  induction fields as [|[n x] rest IH]; simpl; [contradiction|].
  destruct (truthy x) eqn:Hx; [|eauto].
  destruct Hin as [[= -> ->]|Hin]; [congruence|auto].
Qed.

Lemma validateRequiredFields_present fields :
  Forall (fun f => truthy (snd f) = true) fields ->
  validateRequiredFields fields = None.
Proof.
  induction 1 as [|[n x] rest Hx _ IH]; simpl; [reflexivity|].
  simpl in Hx. now rewrite Hx.
Qed.

(** The loop over the checks throws for the first check, in the order of the
    list, that is not valid, and touches nothing. *)
Lemma forOf_checks {E} (mk : E -> Thrown) (checks : list (bool * E)) (w : World) :
  forOf checks (fun '(isValid, error) => throwIf (negb isValid) (mk error)) w
  = match find (fun c => negb (fst c)) checks with
    | Some (_, error) => (w, Threw (mk error))
    | None => (w, Returned tt)
    end.
Proof.
  induction checks as [|[isValid error] rest IH]; simpl; [reflexivity|].
  unfold bind. destruct isValid; simpl; [exact IH|reflexivity].
Qed.

(** ** Registration: validation comes first *)

Ltac run_checks :=
  unfold PassportRegister, PassportLogIn; cbv zeta;
  unfold bind at 1; rewrite forOf_checks; cbn [find fst negb].

(** C2.  A registration in which [email], [password] or [phoneNumber] is
    absent or empty is answered with a 400 carrying the reason given by the
    required-fields check; one that fails the email, the password or the
    phone check is answered with a 400 carrying the message of the first
    check that fails, in the order required fields, email, password, phone.
    In each case the world is left as it was: no call reached the store (or
    any other collaborator) and no row was created. *)
Theorem register_rejects_invalid_input (env : Env) (req : Request) (w : World) :
  let b := req_body req in
  let required :=
    [("email", body_email b); ("password", body_password b);
     ("phoneNumber", body_phoneNumber b)] in
  (absentOrEmpty (body_email b) \/ absentOrEmpty (body_password b)
   \/ absentOrEmpty (body_phoneNumber b) ->
   exists reason,
     validateRequiredFields required = Some reason
     /\ PassportRegister env req w = (w, Threw (ApiError 400 (Some reason))))
  /\ (truthy (validateRequiredFields required) = false ->
      validateEmail (body_email b) = false ->
      PassportRegister env req w
      = (w, Threw (ApiError 400 (Some "Invalid email format."))))
  /\ (truthy (validateRequiredFields required) = false ->
      validateEmail (body_email b) = true ->
      validatePassword (body_password b) = false ->
      PassportRegister env req w
      = (w, Threw (ApiError 400 (Some weakPasswordMessage))))
  /\ (truthy (validateRequiredFields required) = false ->
      validateEmail (body_email b) = true ->
      validatePassword (body_password b) = true ->
      validatePhoneNumber (body_phoneNumber b) = false ->
      PassportRegister env req w
      = (w, Threw (ApiError 400
           (Some "Phone number must be in the format +91 followed by 10 digits.")))).
Proof.
  intros b required. repeat split.
  - intros Hmissing.
    assert (exists reason, validateRequiredFields required = Some reason)
      as [reason Hreason].
    { destruct Hmissing as [H|[H|H]];
        [ apply (validateRequiredFields_missing required "email" (body_email b))
        | apply (validateRequiredFields_missing required "password" (body_password b))
        | apply (validateRequiredFields_missing required "phoneNumber"
                   (body_phoneNumber b)) ];
        subst required; simpl; auto. }
    exists reason. split; [exact Hreason|].
    run_checks. fold b. fold required. rewrite Hreason.
    rewrite (validateRequiredFields_truthy _ _ Hreason). reflexivity.
  - intros Hreq Hemail. run_checks. fold b. fold required.
    rewrite Hreq, Hemail. reflexivity.
  - intros Hreq Hemail Hpw. run_checks. fold b. fold required.
    rewrite Hreq, Hemail, Hpw. reflexivity.
  - intros Hreq Hemail Hpw Hphone. run_checks. fold b. fold required.
    rewrite Hreq, Hemail, Hpw, Hphone. reflexivity.
Qed.

(** ** Registration: the runs that pass validation *)

Lemma validateEmail_defined v : validateEmail v = true -> exists e, v = Some e.
Proof. destruct v; [eauto|discriminate]. Qed.

Lemma validatePassword_defined v : validatePassword v = true -> exists p, v = Some p.
Proof. destruct v; [eauto|discriminate]. Qed.

Lemma validatePhoneNumber_defined v :
  validatePhoneNumber v = true -> exists p, v = Some p.
Proof. destruct v; [eauto|discriminate]. Qed.

Lemma registrationValid_fields b :
  registrationValid b = true ->
  exists e p ph, body_email b = Some e /\ body_password b = Some p
                 /\ body_phoneNumber b = Some ph.
Proof.
  unfold registrationValid. rewrite !andb_true_iff.
  intros [[[_ He] Hp] Hph].
  apply validateEmail_defined in He as [e He].
  apply validatePassword_defined in Hp as [p Hp].
  apply validatePhoneNumber_defined in Hph as [ph Hph]. eauto 7.
Qed.

Lemma userRoleOf_eq role :
  (if includes allowedRoles role then role else Some "user")
  = Some (userRoleOf role).
Proof.
  unfold userRoleOf. destruct role as [r|]; [|reflexivity].
  unfold includes. destruct (existsb (String.eqb r) allowedRoles); reflexivity.
Qed.

(** An invalid registration throws a 400 and leaves the world as it was. *)
Lemma register_invalid env req w :
  registrationValid (req_body req) = false ->
  exists reason, PassportRegister env req w = (w, Threw (ApiError 400 reason)).
Proof.
  unfold registrationValid. intros H. run_checks.
  destruct (truthy (validateRequiredFields _)); simpl in *; [eauto|].
  destruct (validateEmail _); simpl in *; [|eauto].
  destruct (validatePassword _); simpl in *; [|eauto].
  destruct (validatePhoneNumber _); simpl in *; [discriminate|eauto].
Qed.

(** What a valid registration does, by cases on the table and on the
    collaborators. *)
Lemma register_valid env req w e p ph :
  registrationValid (req_body req) = true ->
  body_email (req_body req) = Some e ->
  body_password (req_body req) = Some p ->
  body_phoneNumber (req_body req) = Some ph ->
  let r := userRoleOf (body_role (req_body req)) in
  PassportRegister env req w
  = match find (matches (WhereEmail e)) (users w) with
    | Some _ =>
        (logged [StoreFindOne (WhereEmail e)] w,
         Threw (ApiError 409 (Some "User already exists.")))
    | None =>
        if createPersists env then
          match sessionError env with
          | Some err =>
              ({| users := users w ++ [User.make (nextId w) e p r ph None None];
                  nextId := nextId w + 1;
                  session := session w;
                  calls := calls w ++ [StoreFindOne (WhereEmail e); StoreCreate e;
                                       SessionBind (nextId w)] |},
               Threw (Error err))
          | None =>
              (registered e p r ph w,
               Returned
                 (respond 201 []
                    {| statusCode := 201;
                       data := projected ["password"]
                                 (find (matches (WhereEmail e))
                                    (users (registered e p r ph w)));
                       message := "User registered successfully." |}))
          end
        else
          (logged [StoreFindOne (WhereEmail e); StoreCreate e] w,
           Threw (ApiError 500 (Some "Error while creating user.")))
    end.
Proof.
  unfold registrationValid. rewrite !andb_true_iff, negb_true_iff.
  intros [[[Hreq He] Hp] Hph] Ee Ep Eph. run_checks.
  rewrite Hreq, He, Hp, Hph. cbn [negb].
  rewrite userRoleOf_eq, Ee, Ep, Eph.
  unfold findOneByEmail, findOne, create, setSessionForUser, throwIf,
    getUsers, getNextId, getSession, setUsers, setSession, call, bind, ret,
    throw, logged, registered.
  cbn -[matches projected].
  destruct (find (matches (WhereEmail e)) (users w)); cbn -[matches projected].
  - reflexivity.
  - destruct (createPersists env); cbn -[matches projected].
    + destruct (sessionError env); cbn -[matches projected].
      * rewrite <- !app_assoc. reflexivity.
      * rewrite <- !app_assoc. reflexivity.
    + rewrite <- !app_assoc. reflexivity.
Qed.

Lemma find_app_none {A} (f : A -> bool) (xs ys : list A) :
  find f xs = None -> find f (xs ++ ys) = find f ys.
Proof.
  induction xs as [|x xs IH]; simpl; [reflexivity|].
  destruct (f x); [discriminate|exact IH].
Qed.

Lemma find_filter_nil {A} (f : A -> bool) (xs : list A) :
  find f xs = None -> filter f xs = [].
Proof.
  induction xs as [|x xs IH]; simpl; [reflexivity|].
  destruct (f x); [discriminate|exact IH].
Qed.

Lemma find_In_some {A} (f : A -> bool) (xs : list A) (x : A) :
  In x xs -> f x = true -> exists y, find f xs = Some y.
Proof.
  intros Hin Hf. destruct (find f xs) eqn:E; [eauto|].
  now rewrite (find_none f xs E x Hin) in Hf.
Qed.

(** A registration that answers went through every step: the input was
    valid, the email was free, the row was created and the session bound. *)
Lemma register_returned env req w w1 r1 :
  PassportRegister env req w = (w1, Returned r1) ->
  exists e p ph,
    let r := userRoleOf (body_role (req_body req)) in
    let user := User.make (nextId w) e p r ph None None in
    registrationValid (req_body req) = true
    /\ body_email (req_body req) = Some e
    /\ body_password (req_body req) = Some p
    /\ body_phoneNumber (req_body req) = Some ph
    /\ find (matches (WhereEmail e)) (users w) = None
    /\ createPersists env = true
    /\ w1 = registered e p r ph w
    /\ r1 = respond 201 []
              {| statusCode := 201;
                 data := User.project ["password"] user;
                 message := "User registered successfully." |}.
Proof.
  intros Hrun.
  destruct (registrationValid (req_body req)) eqn:Hvalid.
  2:{ destruct (register_invalid env req w Hvalid) as [reason H].
      rewrite H in Hrun. discriminate. }
  destruct (registrationValid_fields _ Hvalid) as (e & p & ph & Ee & Ep & Eph).
  exists e, p, ph. cbv zeta.
  rewrite (register_valid env req w e p ph Hvalid Ee Ep Eph) in Hrun.
  destruct (find (matches (WhereEmail e)) (users w)) eqn:Hfind; [discriminate|].
  destruct (createPersists env); [|discriminate].
  destruct (sessionError env); [discriminate|].
  injection Hrun as <- <-.
  repeat split; try assumption.
  rewrite (find_app_none _ _ _ Hfind). cbn [find matches User.email].
  rewrite String.eqb_refl. reflexivity.
Qed.

(** ** Registration: an email is registered once *)

(** C3 (amended).  A valid registration whose email already has a row is answered with
    a 409; the only call it makes is the lookup, so no row is created.
    Hence, when a registration went through and the same email is registered
    again, the second attempt is a 409 and the table holds exactly one row
    with that email afterwards. *)
Theorem register_existing_email_conflict
    (env1 env2 : Env) (req1 req2 : Request) (w : World) (e : string) :
  registrationValid (req_body req2) = true ->
  body_email (req_body req2) = Some e ->
  ((exists u, In u (users w) /\ User.email u = e) ->
   PassportRegister env2 req2 w
   = (logged [StoreFindOne (WhereEmail e)] w,
      Threw (ApiError 409 (Some "User already exists."))))
  /\ (body_email (req_body req1) = Some e ->
      forall w1 r1,
        PassportRegister env1 req1 w = (w1, Returned r1) ->
        PassportRegister env2 req2 w1
        = (logged [StoreFindOne (WhereEmail e)] w1,
           Threw (ApiError 409 (Some "User already exists.")))
        /\ List.length (withEmail e (users (fst (PassportRegister env2 req2 w1))))
           = 1%nat).
Proof.
  intros Hvalid Ee.
  assert (Hconflict : forall w0,
    (exists u, In u (users w0) /\ User.email u = e) ->
    PassportRegister env2 req2 w0
    = (logged [StoreFindOne (WhereEmail e)] w0,
       Threw (ApiError 409 (Some "User already exists.")))).
  { intros w0 (u & Hin & Hu).
    destruct (registrationValid_fields _ Hvalid) as (e' & p & ph & Ee' & Ep & Eph).
    rewrite Ee in Ee'. injection Ee' as <-.
    rewrite (register_valid env2 req2 w0 e p ph Hvalid Ee Ep Eph).
    destruct (find_In_some (matches (WhereEmail e)) (users w0) u Hin) as [y ->].
    - simpl. rewrite Hu. apply String.eqb_refl.
    - reflexivity. }
  split; [apply Hconflict|].
  intros Ee1 w1 r1 Hrun1.
  destruct (register_returned _ _ _ _ _ Hrun1)
    as (e1 & p1 & ph1 & _ & Ee1' & _ & _ & Hfree & _ & -> & _).
  rewrite Ee1 in Ee1'. injection Ee1' as <-.
  set (user := User.make (nextId w) e p1
                 (userRoleOf (body_role (req_body req1))) ph1 None None).
  assert (Hnow : exists u, In u (users (registered e p1
                   (userRoleOf (body_role (req_body req1))) ph1 w))
                 /\ User.email u = e).
  { exists user. split; [|reflexivity].
    unfold registered. cbn [users]. apply in_or_app. right. now left. }
  rewrite (Hconflict _ Hnow). split; [reflexivity|].
  cbn [fst logged users registered]. unfold withEmail.
  rewrite filter_app, (find_filter_nil _ _ Hfree).
  cbn [filter matches User.email app]. rewrite String.eqb_refl. reflexivity.
Qed.

(** ** Login *)

Ltac run_monad :=
  unfold findOneByEmail, findOne, create, update, setSessionForUser, login,
    authenticate, destroy, sendResetEmail, throwIf, getUsers, getNextId,
    getSession, setUsers, setSession, call, bind, ret, throw, logged;
  cbn -[matches projected toHex randomBytes User.project User.apply Z.add
        updateRows].

Lemma credentialsValid_fields b :
  credentialsValid b = true ->
  exists e p, body_email b = Some e /\ body_password b = Some p.
Proof.
  unfold credentialsValid. rewrite !andb_true_iff.
  intros [[_ He] Hp].
  apply validateEmail_defined in He as [e He].
  apply validatePassword_defined in Hp as [p Hp]. eauto.
Qed.

(** A login that fails a check throws a 400 and leaves the world as it was. *)
Lemma login_invalid env req w :
  credentialsValid (req_body req) = false ->
  exists reason,
    PassportLogIn env req w = (w, Threw (ApiError 400 (Some reason))).
Proof.
  unfold credentialsValid. intros H. run_checks.
  destruct (truthy (validateRequiredFields _)); simpl in *; [eauto|].
  destruct (validateEmail _); simpl in *; [|eauto].
  destruct (validatePassword _); simpl in *; [discriminate|eauto].
Qed.

(** A login that passes the checks runs the strategy on the table and hands
    its verdict to the callback. *)
Lemma login_valid env req w e p :
  credentialsValid (req_body req) = true ->
  body_email (req_body req) = Some e ->
  body_password (req_body req) = Some p ->
  PassportLogIn env req w
  = loginCallback env (localStrategy env (users w) e p)
      (logged [Authenticate e p] w).
Proof.
  unfold credentialsValid. rewrite !andb_true_iff, negb_true_iff.
  intros [[Hreq He] Hp] Ee Ep. run_checks.
  rewrite Hreq, He, Hp, Ee, Ep. cbn [negb]. run_monad. reflexivity.
Qed.

(** The callback answers 200 only after the session was bound, the user read
    again without its password and logged in. *)
Lemma loginCallback_success env user w w' r :
  loginCallback env (AuthSuccess user) w = (w', Returned r) ->
  exists found,
    find (matches (WhereEmail (User.email user))) (users w) = Some found
    /\ r = respond 200
             [SetCookie "session_cookie" (JNum (User.userid user))
                {| httpOnly := Some true; sameSite := Some "strict";
                   secure := None |}]
             {| statusCode := 200;
                data := JObj [("user", User.project ["password"] found)];
                message := "Login successful" |}
    /\ session w' = {| userId := Some (User.userid user);
                       passportUser := Some (User.project ["password"] found) |}
    /\ users w' = users w.
Proof.
  unfold loginCallback. run_monad.
  destruct (sessionError env); [discriminate|]. cbn -[matches projected].
  destruct (find (matches (WhereEmail (User.email user))) (users w))
    as [found|] eqn:Hfind; [|discriminate].
  cbn -[matches projected].
  destruct (loginError env); [discriminate|]. cbn -[matches projected].
  intros [= <- <-]. exists found. repeat split.
Qed.

(** A login answers either 401, on the strategy's refusal, or 200. *)
Lemma login_returned env req w w' r :
  PassportLogIn env req w = (w', Returned r) ->
  exists e p,
    body_email (req_body req) = Some e
    /\ body_password (req_body req) = Some p
    /\ credentialsValid (req_body req) = true
    /\ ((exists info,
           localStrategy env (users w) e p = AuthInvalid info
           /\ w' = logged [Authenticate e p] w
           /\ r = respond 401 []
                    {| statusCode := 401; data := JObj [];
                       message := or_default info "Invalid login credentials." |})
        \/ (exists user,
              localStrategy env (users w) e p = AuthSuccess user
              /\ loginCallback env (AuthSuccess user)
                   (logged [Authenticate e p] w) = (w', Returned r))).
Proof.
  intros Hrun.
  destruct (credentialsValid (req_body req)) eqn:Hvalid.
  2:{ destruct (login_invalid env req w Hvalid) as [reason H].
      rewrite H in Hrun. discriminate. }
  destruct (credentialsValid_fields _ Hvalid) as (e & p & Ee & Ep).
  exists e, p. repeat split; try assumption.
  rewrite (login_valid env req w e p Hvalid Ee Ep) in Hrun.
  destruct (localStrategy env (users w) e p) as [err|info|user].
  - discriminate.
  - left. exists info. injection Hrun as <- <-. repeat split.
  - right. exists user. split; [reflexivity|exact Hrun].
Qed.

(** ** The password stays out of the answers *)

(** Reading a row without its [password] gives an object that has the other
    six attributes and no member named [password]. *)
Lemma project_without_password u :
  User.project ["password"] u
  = JObj [ ("userid", JNum (User.userid u));
           ("email", JStr (User.email u));
           ("role", JStr (User.role u));
           ("phoneNumber", JStr (User.phoneNumber u));
           ("resetToken", User.nullable JStr (User.resetToken u));
           ("tokenExpiration", User.nullable JNum (User.tokenExpiration u)) ].
Proof. reflexivity. Qed.

Lemma project_hides_password u :
  has_key "password" (User.project ["password"] u) = false.
Proof.
  rewrite project_without_password.
  destruct (User.resetToken u), (User.tokenExpiration u); reflexivity.
Qed.

(** C4.  Whenever [PassportRegister] answers, the status is 201 and the data
    of the body is a row of the table read without its password; whenever
    [PassportLogIn] answers 200, the data is [{ user }] where [user] is a row
    read without its password.  In both, and in the 401 of a refused login,
    no object of the data has a member named [password]. *)
Theorem success_body_excludes_password
    (env : Env) (req : Request) (w w' : World) (r : Response) :
  (PassportRegister env req w = (w', Returned r) ->
   status r = 201
   /\ (exists u, In u (users w')
                 /\ data (body r) = User.project ["password"] u)
   /\ has_key "password" (data (body r)) = false)
  /\ (PassportLogIn env req w = (w', Returned r) ->
      (status r = 200 ->
       exists u, In u (users w)
                 /\ data (body r) = JObj [("user", User.project ["password"] u)])
      /\ has_key "password" (data (body r)) = false).
Proof.
  split.
  - intros Hrun.
    destruct (register_returned _ _ _ _ _ Hrun)
      as (e & p & ph & _ & _ & _ & _ & _ & _ & -> & ->).
    cbn [status respond body data]. split; [reflexivity|]. split.
    + eexists. split; [|reflexivity].
      unfold registered. cbn [users]. apply in_or_app. right. now left.
    + apply project_hides_password.
  - intros Hrun.
    destruct (login_returned _ _ _ _ _ Hrun)
      as (e & p & _ & _ & _ & [(info & _ & _ & ->)|(user & _ & Hcb)]).
    + cbn [status respond body data]. split; [discriminate|reflexivity].
    + destruct (loginCallback_success _ _ _ _ _ Hcb)
        as (found & Hfind & -> & _ & _).
      cbn [status respond body data]. split.
      * intros _. exists found. split; [|reflexivity].
        apply find_some in Hfind. exact (proj1 Hfind).
      * cbn [has_key]. rewrite project_hides_password. reflexivity.
Qed.

(** ** The session cookie *)

(** C6.  Whenever [PassportLogIn] answers 200, the strategy accepted the
    submitted credentials for some user, the only cookie set is
    [session_cookie] with [httpOnly: true] and [sameSite: 'strict'], its
    value is that user's [userid], and the session's [userId] is the same
    identifier. *)
Theorem login_sets_session_cookie
    (env : Env) (req : Request) (w w' : World) (r : Response) :
  PassportLogIn env req w = (w', Returned r) ->
  status r = 200 ->
  exists e p user,
    body_email (req_body req) = Some e
    /\ body_password (req_body req) = Some p
    /\ localStrategy env (users w) e p = AuthSuccess user
    /\ cookies r
       = [SetCookie "session_cookie" (JNum (User.userid user))
            {| httpOnly := Some true; sameSite := Some "strict";
               secure := None |}]
    /\ userId (session w') = Some (User.userid user).
Proof.
  intros Hrun Hstatus.
  destruct (login_returned _ _ _ _ _ Hrun)
    as (e & p & Ee & Ep & _ & [(info & _ & _ & ->)|(user & Hauth & Hcb)]).
  - discriminate.
  - destruct (loginCallback_success _ _ _ _ _ Hcb)
      as (found & _ & -> & Hsession & _).
    exists e, p, user. rewrite Hsession. repeat split; assumption.
Qed.

(** ** Refused logins *)

(** What the controller does with a refusal, whatever the strategy: a login
    that passes the checks and whose credentials the
    strategy refuses is answered with a 401 whose message is the reason the
    strategy gave, or ["Invalid login credentials."] when it gave none (or an
    empty one); nothing but the trace changes.  So two refused logins get the
    same answer whenever the strategy gives the same reason, or none, for
    both: the controller itself never tells an unknown email from a wrong
    password. *)
Theorem login_refusal_forwards_reason
    (env1 env2 : Env) (req1 req2 : Request) (w1 w2 : World)
    (e1 p1 e2 p2 : string) (info1 info2 : field) :
  credentialsValid (req_body req1) = true ->
  body_email (req_body req1) = Some e1 ->
  body_password (req_body req1) = Some p1 ->
  localStrategy env1 (users w1) e1 p1 = AuthInvalid info1 ->
  credentialsValid (req_body req2) = true ->
  body_email (req_body req2) = Some e2 ->
  body_password (req_body req2) = Some p2 ->
  localStrategy env2 (users w2) e2 p2 = AuthInvalid info2 ->
  exists r1 r2,
    PassportLogIn env1 req1 w1 = (logged [Authenticate e1 p1] w1, Returned r1)
    /\ PassportLogIn env2 req2 w2 = (logged [Authenticate e2 p2] w2, Returned r2)
    /\ status r1 = 401 /\ status r2 = 401
    /\ message (body r1) = or_default info1 "Invalid login credentials."
    /\ message (body r2) = or_default info2 "Invalid login credentials."
    /\ (or_default info1 "Invalid login credentials."
        = or_default info2 "Invalid login credentials." -> r1 = r2)
    /\ (truthy info1 = false -> truthy info2 = false ->
        message (body r1) = "Invalid login credentials." /\ r1 = r2).
Proof.
  intros V1 Ee1 Ep1 H1 V2 Ee2 Ep2 H2.
  rewrite (login_valid env1 req1 w1 e1 p1 V1 Ee1 Ep1), H1.
  rewrite (login_valid env2 req2 w2 e2 p2 V2 Ee2 Ep2), H2.
  do 2 eexists. do 6 (split; [reflexivity|]).
  cbn [loginCallback ret]. split.
  - intros ->. reflexivity.
  - intros T1 T2. apply truthy_false in T1, T2.
    assert (D : forall v, absentOrEmpty v ->
                or_default v "Invalid login credentials."
                = "Invalid login credentials.").
    { intros v [->| ->]; reflexivity. }
    cbn [body message respond]. rewrite (D _ T1), (D _ T2). split; reflexivity.
Qed.


(** ** Login checks the strength of the password *)

(** C10.  A login whose password fails [validatePassword] throws a 400 and
    leaves the world as it was, trace included: the strategy is not run.
    The message is the one of the strength rule once the required-fields
    and the email checks hold.  This is so whatever the strategy would have
    answered: an accepted user whose password fails the rule gets no
    answer but the 400. *)
Theorem login_rejects_weak_password (env : Env) (req : Request) (w : World) :
  validatePassword (body_password (req_body req)) = false ->
  (exists reason,
     PassportLogIn env req w = (w, Threw (ApiError 400 (Some reason))))
  /\ (truthy (validateRequiredFields
                [("email", body_email (req_body req));
                 ("password", body_password (req_body req))]) = false ->
      validateEmail (body_email (req_body req)) = true ->
      PassportLogIn env req w
      = (w, Threw (ApiError 400 (Some weakPasswordMessage))))
  /\ (forall e p user,
        body_email (req_body req) = Some e ->
        body_password (req_body req) = Some p ->
        localStrategy env (users w) e p = AuthSuccess user ->
        forall w' r, PassportLogIn env req w <> (w', Returned r))
  /\ (forall e p,
        In (Authenticate e p) (calls (fst (PassportLogIn env req w))) ->
        In (Authenticate e p) (calls w)).
Proof.
  intros Hweak.
  assert (Hinvalid : credentialsValid (req_body req) = false).
  { unfold credentialsValid. rewrite Hweak. apply andb_false_r. }
  destruct (login_invalid env req w Hinvalid) as [reason Hrun].
  split; [eauto|]. split; [|split].
  - intros Hreq Hemail. run_checks. rewrite Hreq, Hemail, Hweak. reflexivity.
  - intros e p user _ _ _ w' r. rewrite Hrun. discriminate.
  - intros e p. rewrite Hrun. exact (fun H => H).
Qed.

(** ** Logout *)

(** C9.  When the destruction of the session fails, [PassportLogOut] answers
    500 ["Failed to log out"], sets or clears no cookie and leaves the
    session as it is; otherwise the session is emptied, the session cookie
    [connect.sid] is cleared with [httpOnly: true] and [secure: true], and
    the answer is 200.  Nothing depends on what the session held. *)
Theorem logout_outcome (env : Env) (req : Request) (w : World) :
  (forall err,
     destroyError env = Some err ->
     PassportLogOut env req w
     = (logged [SessionDestroy] w,
        Returned (respond 500 []
                    {| statusCode := 500; data := JObj [];
                       message := "Failed to log out" |})))
  /\ (destroyError env = None ->
      PassportLogOut env req w
      = ({| users := users w; nextId := nextId w; session := emptySession;
            calls := calls w ++ [SessionDestroy] |},
         Returned (respond 200
                     [ClearCookie "connect.sid"
                        {| httpOnly := Some true; sameSite := None;
                           secure := Some true |}]
                     {| statusCode := 200; data := JObj [];
                        message := "User logged out successfully" |}))).
Proof.
  split.
  - intros err Herr. unfold PassportLogOut. run_monad. rewrite Herr. reflexivity.
  - intros Hok. unfold PassportLogOut. run_monad. rewrite Hok. reflexivity.
Qed.

(** ** Forgot password *)

Lemma hexOfByte_is_hex (b : Byte.byte) : forallb is_hex (hexOfByte b) = true.
Proof. destruct b; reflexivity. Qed.

Lemma toHex_chars (bs : list Byte.byte) :
  chars (toHex bs) = flat_map hexOfByte bs.
Proof. apply list_ascii_of_string_of_list_ascii. Qed.

Lemma chars_length (s : string) : List.length (chars s) = String.length s.
Proof. induction s as [|c s IH]; simpl; [reflexivity|]. now rewrite <- IH. Qed.

(** Hex encoding takes two characters per byte, all of them hex digits. *)
Lemma toHex_length (bs : list Byte.byte) :
  String.length (toHex bs) = (2 * List.length bs)%nat.
Proof.
  rewrite <- chars_length, toHex_chars.
  induction bs as [|b bs IH]; simpl in *; [reflexivity|]. rewrite IH. lia.
Qed.

Lemma toHex_is_hex (bs : list Byte.byte) :
  forallb is_hex (chars (toHex bs)) = true.
Proof.
  rewrite toHex_chars.
  induction bs as [|b bs IH]; [reflexivity|].
  cbn [flat_map]. rewrite forallb_app, hexOfByte_is_hex, IH. reflexivity.
Qed.

Lemma randomBytes_length env n : List.length (randomBytes env n) = n.
Proof. unfold randomBytes. now rewrite length_map, length_seq. Qed.

(** The row found by a lookup is rewritten by an update of its rows. *)
Lemma updateRows_In id c us u :
  In u us -> User.userid u = id -> In (User.apply c u) (updateRows id c us).
Proof.
  intros Hin <-. unfold updateRows.
  apply in_map_iff. exists u. rewrite Z.eqb_refl. auto.
Qed.

(** What [ForgotPassword] does for a well-formed email. *)
Lemma forgot_valid env req w e :
  body_email (req_body req) = Some e ->
  validateEmail (Some e) = true ->
  let token := toHex (randomBytes env 3) in
  ForgotPassword env req w
  = match find (matches (WhereEmail e)) (users w) with
    | None =>
        (logged [StoreFindOne (WhereEmail e)] w,
         Threw (ApiError 404 (Some "User with this email does not exist.")))
    | Some user =>
        ({| users := updateRows (User.userid user)
                       (tokenIssued token (now env + 3600000)) (users w);
            nextId := nextId w;
            session := session w;
            calls := calls w
                     ++ [StoreFindOne (WhereEmail e);
                         StoreUpdate (User.userid user);
                         SendMail (Some e)
                           (protocol req ++ "://" ++ host req
                            ++ "/verifyEmail/" ++ token)] |},
         match mailError env with
         | Some err => Threw (Error err)
         | None =>
             Returned
               (respond 200 []
                  {| statusCode := 200; data := JObj [];
                     message := "Password reset email sent successfully." |})
         end)
    end.
Proof.
  intros Ee He token. unfold ForgotPassword. rewrite Ee, He. run_monad.
  destruct (find (matches (WhereEmail e)) (users w)) as [user|];
    cbn -[matches toHex randomBytes Z.add updateRows]; [|reflexivity].
  fold token. rewrite <- !app_assoc. cbn [app].
  destruct (mailError env); reflexivity.
Qed.

Lemma byteOfHex_hexOfByte (b : Byte.byte) : byteOfHex (hexOfByte b) = Some b.
Proof. destruct b; reflexivity. Qed.

Lemma hexOfByte_injective (a b : Byte.byte) : hexOfByte a = hexOfByte b -> a = b.
Proof.
  intros H. apply (f_equal byteOfHex) in H.
  rewrite !byteOfHex_hexOfByte in H. now injection H.
Qed.

(** The three bytes drawn are the first three of the entropy, in order. *)
Lemma randomBytes_3 env :
  randomBytes env 3 = [entropy env 0%nat; entropy env 1%nat; entropy env 2%nat].
Proof. reflexivity. Qed.

(** Two draws give the same token only when they drew the same bytes. *)
Lemma token_determines_bytes env env' :
  toHex (randomBytes env' 3) = toHex (randomBytes env 3) ->
  entropy env' 0%nat = entropy env 0%nat
  /\ entropy env' 1%nat = entropy env 1%nat
  /\ entropy env' 2%nat = entropy env 2%nat.
Proof.
  intros H. apply (f_equal chars) in H. rewrite !toHex_chars, !randomBytes_3 in H.
  cbn [flat_map app hexOfByte] in H.
  injection H as H0 H0' H1 H1' H2 H2'.
  repeat split; apply hexOfByte_injective; unfold hexOfByte; congruence.
Qed.

(** C7.  For a well-formed email, [ForgotPassword] throws a 404 when no row
    has that email, having made only the lookup.  Otherwise the token is the
    hex encoding of the three bytes drawn from the random source, in the
    order drawn: six hex digits, two per byte, from which the bytes can be
    read back, so that another draw gives the same token only if it drew the
    same three bytes; the rows of the user
    found are updated with that token and the expiration [now + 3600000]
    milliseconds, the mail is sent after the update, and the answer, if the
    mail goes out, is the 200 acknowledgement. *)
Theorem forgot_password_issues_token
    (env : Env) (req : Request) (w : World) (e : string) :
  body_email (req_body req) = Some e ->
  validateEmail (Some e) = true ->
  let token := toHex (randomBytes env 3) in
  let expiration := now env + 3600000 in
  let run := ForgotPassword env req w in
  (find (matches (WhereEmail e)) (users w) = None ->
   run = (logged [StoreFindOne (WhereEmail e)] w,
          Threw (ApiError 404 (Some "User with this email does not exist."))))
  /\ (forall user,
        find (matches (WhereEmail e)) (users w) = Some user ->
        String.length token = 6%nat
        /\ forallb is_hex (chars token) = true
        /\ chars token
           = (hexOfByte (entropy env 0%nat) ++ hexOfByte (entropy env 1%nat)
              ++ hexOfByte (entropy env 2%nat))%list
        /\ (forall env',
              toHex (randomBytes env' 3) = token ->
              entropy env' 0%nat = entropy env 0%nat
              /\ entropy env' 1%nat = entropy env 1%nat
              /\ entropy env' 2%nat = entropy env 2%nat)
        /\ users (fst run)
           = updateRows (User.userid user) (tokenIssued token expiration)
               (users w)
        /\ In (User.apply (tokenIssued token expiration) user) (users (fst run))
        /\ User.resetToken (User.apply (tokenIssued token expiration) user)
           = Some token
        /\ User.tokenExpiration (User.apply (tokenIssued token expiration) user)
           = Some expiration
        /\ calls (fst run)
           = (calls w ++ [StoreFindOne (WhereEmail e);
                          StoreUpdate (User.userid user);
                          SendMail (Some e)
                            (protocol req ++ "://" ++ host req
                             ++ "/verifyEmail/" ++ token)])%list
        /\ (forall r, snd run = Returned r ->
              mailError env = None
              /\ r = respond 200 []
                       {| statusCode := 200; data := JObj [];
                          message := "Password reset email sent successfully." |})
        /\ (mailError env = None -> exists r, snd run = Returned r)).
Proof.
  intros Ee He token expiration run. subst run.
  rewrite (forgot_valid env req w e Ee He). fold token. fold expiration.
  split.
  - intros ->. reflexivity.
  - intros user Hfind. rewrite Hfind. cbn [fst snd users calls].
    split. { unfold token. now rewrite toHex_length, randomBytes_length. }
    split. { apply toHex_is_hex. }
    split. { unfold token. rewrite toHex_chars, randomBytes_3. cbn [flat_map].
             now rewrite app_nil_r. }
    split. { intros env'. apply token_determines_bytes. }
    split; [reflexivity|].
    split. { apply find_some in Hfind. now apply updateRows_In. }
    do 3 (split; [reflexivity|]).
    split.
    + intros r. destruct (mailError env); [discriminate|].
      intros [= <-]. split; reflexivity.
    + intros ->. eauto.
Qed.

(** ** Reset password *)

Lemma reset_weak env req w :
  validatePassword (body_newPassword (req_body req)) = false ->
  ResetPassword env req w
  = (w, Threw (ApiError 400 (Some weakPasswordMessage))).
Proof. intros H. unfold ResetPassword. rewrite H. reflexivity. Qed.

(** What [ResetPassword] does with a strong new password. *)
Lemma reset_valid env req w :
  validatePassword (body_newPassword (req_body req)) = true ->
  let lookup := WhereResetToken (params_token req) (now env) in
  ResetPassword env req w
  = match find (matches lookup) (users w) with
    | None =>
        (logged [StoreFindOne lookup] w,
         Threw (ApiError 400 (Some "Invalid or expired reset token.")))
    | Some user =>
        ({| users := updateRows (User.userid user)
                       (passwordReset (body_newPassword (req_body req)))
                       (users w);
            nextId := nextId w;
            session := session w;
            calls := calls w ++ [StoreFindOne lookup;
                                 StoreUpdate (User.userid user)] |},
         Returned
           (respond 200 []
              {| statusCode := 200; data := JObj [];
                 message := "Password reset successfully" |}))
    end.
Proof.
  intros H lookup. unfold ResetPassword. rewrite H. run_monad. fold lookup.
  destruct (find (matches lookup) (users w)) as [user|];
    cbn -[matches updateRows]; [|reflexivity].
  rewrite <- !app_assoc. reflexivity.
Qed.

Lemma find_all_false {A} (f : A -> bool) (xs : list A) :
  (forall x, In x xs -> f x = false) -> find f xs = None.
Proof.
  induction xs as [|x xs IH]; intros H; simpl; [reflexivity|].
  rewrite (H x (or_introl eq_refl)). apply IH. intros y Hy. apply H. now right.
Qed.

Lemma matches_token token t u :
  matches (WhereResetToken token t) u = true <->
  User.resetToken u = Some token
  /\ exists expiry, User.tokenExpiration u = Some expiry /\ t < expiry.
Proof.
  unfold matches.
  destruct (User.resetToken u) as [tok|], (User.tokenExpiration u) as [x|].
  - rewrite andb_true_iff, String.eqb_eq, Z.ltb_lt. split.
    + intros [-> Hlt]. eauto.
    + intros [[= ->] (expiry & [= ->] & Hlt)]. auto.
  - split; [discriminate|]. intros [_ (expiry & Hx & _)]. discriminate.
  - split; [discriminate|]. intros [Hx _]. discriminate.
  - split; [discriminate|]. intros [Hx _]. discriminate.
Qed.

(** No row carries the token: the reset is refused, the table untouched. *)
Lemma reset_refused env req w :
  (forall u, In u (users w) ->
     matches (WhereResetToken (params_token req) (now env)) u = false) ->
  exists reason,
    ResetPassword env req w
    = ((if validatePassword (body_newPassword (req_body req))
        then logged [StoreFindOne (WhereResetToken (params_token req) (now env))] w
        else w),
       Threw (ApiError 400 (Some reason)))
    /\ (validatePassword (body_newPassword (req_body req)) = true ->
        reason = "Invalid or expired reset token.").
Proof.
  intros Hnone.
  destruct (validatePassword (body_newPassword (req_body req))) eqn:Hpw.
  - rewrite (reset_valid env req w Hpw), (find_all_false _ _ Hnone).
    eexists. split; reflexivity.
  - rewrite (reset_weak env req w Hpw). eexists. split; [reflexivity|discriminate].
Qed.

(** A reset that answers found a row carrying the token, not yet expired,
    and rewrote the rows of that user. *)
Lemma reset_returned env req w w' r :
  ResetPassword env req w = (w', Returned r) ->
  exists user expiry p,
    In user (users w)
    /\ User.resetToken user = Some (params_token req)
    /\ User.tokenExpiration user = Some expiry
    /\ now env < expiry
    /\ body_newPassword (req_body req) = Some p
    /\ validatePassword (Some p) = true
    /\ users w' = updateRows (User.userid user) (passwordReset (Some p)) (users w)
    /\ r = respond 200 []
             {| statusCode := 200; data := JObj [];
                message := "Password reset successfully" |}.
Proof.
  intros Hrun.
  destruct (validatePassword (body_newPassword (req_body req))) eqn:Hpw.
  2:{ rewrite (reset_weak env req w Hpw) in Hrun. discriminate. }
  rewrite (reset_valid env req w Hpw) in Hrun.
  destruct (find _ (users w)) as [user|] eqn:Hfind; [|discriminate].
  injection Hrun as <- <-.
  apply find_some in Hfind as [Hin Hmatch].
  apply matches_token in Hmatch as (Htok & expiry & Hexp & Hlt).
  destruct (validatePassword_defined _ Hpw) as [p Ep].
  exists user, expiry, p. rewrite Ep in *. repeat split; assumption.
Qed.

(** After the rows of the owner of a token were reset, no row carries it. *)
Lemma reset_clears_token token id p us v :
  ownedBy token id us ->
  In v (updateRows id (passwordReset p) us) ->
  User.resetToken v <> Some token.
Proof.
  intros Hown Hin. unfold updateRows in Hin.
  apply in_map_iff in Hin as (u & <- & Hu).
  destruct (User.userid u =? id) eqn:E.
  - discriminate.
  - intros Htok. apply Hown in Htok; [|exact Hu].
    apply Z.eqb_neq in E. contradiction.
Qed.

(** The rows of the user reset hold the new password and no token. *)
Lemma reset_rows id p us v :
  In v (updateRows id (passwordReset (Some p)) us) ->
  User.userid v = id ->
  User.password v = p /\ User.resetToken v = None
  /\ User.tokenExpiration v = None.
Proof.
  intros Hin Hid. unfold updateRows in Hin.
  apply in_map_iff in Hin as (u & <- & Hu).
  destruct (User.userid u =? id) eqn:E.
  - repeat split.
  - apply Z.eqb_neq in E. contradiction.
Qed.

(** Replaying a token whose owner was just reset is refused. *)
Lemma reset_replay_refused env req w w' r env2 req2 :
  ResetPassword env req w = (w', Returned r) ->
  singleOwner (params_token req) (users w) ->
  params_token req2 = params_token req ->
  exists reason,
    ResetPassword env2 req2 w'
    = ((if validatePassword (body_newPassword (req_body req2))
        then logged [StoreFindOne (WhereResetToken (params_token req2) (now env2))] w'
        else w'),
       Threw (ApiError 400 (Some reason)))
    /\ (validatePassword (body_newPassword (req_body req2)) = true ->
        reason = "Invalid or expired reset token.").
Proof.
  intros Hrun [id Hown] Htok.
  destruct (reset_returned _ _ _ _ _ Hrun)
    as (user & expiry & p & Hin & Huser & _ & _ & _ & _ & Husers & _).
  assert (id = User.userid user) as -> by (symmetry; now apply Hown).
  apply reset_refused. intros v Hv. rewrite Husers in Hv.
  destruct (matches _ v) eqn:Hm; [|reflexivity].
  apply matches_token in Hm as [Hcarries _]. rewrite Htok in Hcarries.
  now apply (reset_clears_token _ _ _ _ _ Hown Hv) in Hcarries.
Qed.

(** A token whose rows are all expired is refused. *)
Lemma reset_expired_refused env req w :
  (forall u expiry,
     In u (users w) -> User.resetToken u = Some (params_token req) ->
     User.tokenExpiration u = Some expiry -> expiry <= now env) ->
  exists reason,
    ResetPassword env req w
    = ((if validatePassword (body_newPassword (req_body req))
        then logged [StoreFindOne (WhereResetToken (params_token req) (now env))] w
        else w),
       Threw (ApiError 400 (Some reason)))
    /\ (validatePassword (body_newPassword (req_body req)) = true ->
        reason = "Invalid or expired reset token.").
Proof.
  intros Hexpired. apply reset_refused. intros u Hu.
  destruct (matches _ u) eqn:Hm; [|reflexivity].
  apply matches_token in Hm as (Htok & expiry & Hexp & Hlt).
  specialize (Hexpired u expiry Hu Htok Hexp). lia.
Qed.

(** The rows carrying a token that was just issued to a user: they are that
    user's, and they expire one hour after the issue. *)
Lemma issued_rows token t id us v :
  ownedBy token id us ->
  In v (updateRows id (tokenIssued token t) us) ->
  User.resetToken v = Some token ->
  User.userid v = id /\ User.tokenExpiration v = Some t.
Proof.
  intros Hown Hin Htok. unfold updateRows in Hin.
  apply in_map_iff in Hin as (u & <- & Hu).
  destruct (User.userid u =? id) eqn:E.
  - apply Z.eqb_eq in E. split; [exact E|reflexivity].
  - apply Hown in Htok; [|exact Hu]. apply Z.eqb_neq in E. contradiction.
Qed.

(** C1 (amended).  [ResetPassword] answers only when the new password is
    strong and a row carries the supplied token with an expiration strictly
    after the current time; it then writes the new password and nulls the
    token and its expiration in the rows of that user, in one update.
    Provided the rows carrying the token all belong to one user, a second
    call with that token, at any time and with any new password, throws a
    400 and leaves the table as it is; so does any call made when the rows
    carrying the token are expired.  The 400 carries the
    invalid-or-expired message whenever the new password passes the
    strength check, which comes first.  In particular a token issued by
    [ForgotPassword] to a user, and carried by no row of another user, is
    accepted once within the hour and refused from one hour on. *)
Theorem reset_token_single_use :
  (forall env req w w' r,
     ResetPassword env req w = (w', Returned r) ->
     exists user expiry p,
       In user (users w)
       /\ User.resetToken user = Some (params_token req)
       /\ User.tokenExpiration user = Some expiry
       /\ now env < expiry
       /\ body_newPassword (req_body req) = Some p
       /\ users w'
          = updateRows (User.userid user) (passwordReset (Some p)) (users w)
       /\ forall v, In v (users w') -> User.userid v = User.userid user ->
            User.password v = p /\ User.resetToken v = None
            /\ User.tokenExpiration v = None)
  /\ (forall env req w w' r env2 req2,
        ResetPassword env req w = (w', Returned r) ->
        singleOwner (params_token req) (users w) ->
        params_token req2 = params_token req ->
        exists reason,
          snd (ResetPassword env2 req2 w') = Threw (ApiError 400 (Some reason))
          /\ users (fst (ResetPassword env2 req2 w')) = users w'
          /\ (validatePassword (body_newPassword (req_body req2)) = true ->
              reason = "Invalid or expired reset token."))
  /\ (forall env req w,
        (forall u expiry,
           In u (users w) -> User.resetToken u = Some (params_token req) ->
           User.tokenExpiration u = Some expiry -> expiry <= now env) ->
        exists reason,
          snd (ResetPassword env req w) = Threw (ApiError 400 (Some reason))
          /\ users (fst (ResetPassword env req w)) = users w
          /\ (validatePassword (body_newPassword (req_body req)) = true ->
              reason = "Invalid or expired reset token."))
  /\ (forall env0 req0 w e user env req,
        body_email (req_body req0) = Some e ->
        validateEmail (Some e) = true ->
        find (matches (WhereEmail e)) (users w) = Some user ->
        ownedBy (toHex (randomBytes env0 3)) (User.userid user) (users w) ->
        params_token req = toHex (randomBytes env0 3) ->
        validatePassword (body_newPassword (req_body req)) = true ->
        let w1 := fst (ForgotPassword env0 req0 w) in
        (now env < now env0 + 3600000 ->
         exists w2 r,
           ResetPassword env req w1 = (w2, Returned r) /\ status r = 200
           /\ forall env2 req2,
                params_token req2 = params_token req ->
                exists reason,
                  snd (ResetPassword env2 req2 w2)
                  = Threw (ApiError 400 (Some reason))
                  /\ users (fst (ResetPassword env2 req2 w2)) = users w2)
        /\ (now env0 + 3600000 <= now env ->
            ResetPassword env req w1
            = (logged [StoreFindOne (WhereResetToken (params_token req) (now env))] w1,
               Threw (ApiError 400 (Some "Invalid or expired reset token."))))).
Proof.
  assert (Hshape : forall env req w reason,
    ResetPassword env req w
    = ((if validatePassword (body_newPassword (req_body req))
        then logged [StoreFindOne (WhereResetToken (params_token req) (now env))] w
        else w),
       Threw (ApiError 400 (Some reason))) ->
    snd (ResetPassword env req w) = Threw (ApiError 400 (Some reason))
    /\ users (fst (ResetPassword env req w)) = users w).
  { intros env req w reason ->. split; [reflexivity|].
    destruct (validatePassword _); reflexivity. }
  split; [|split; [|split]].
  - intros env req w w' r Hrun.
    destruct (reset_returned _ _ _ _ _ Hrun)
      as (user & expiry & p & Hin & Htok & Hexp & Hlt & Ep & _ & Husers & _).
    exists user, expiry, p. repeat split; try assumption;
      rewrite Husers in *; now apply (reset_rows (User.userid user) p (users w)).
  - intros env req w w' r env2 req2 Hrun Hown Htok.
    destruct (reset_replay_refused _ _ _ _ _ env2 req2 Hrun Hown Htok)
      as (reason & H & Hreason).
    exists reason. destruct (Hshape _ _ _ _ H). auto.
  - intros env req w Hexpired.
    destruct (reset_expired_refused env req w Hexpired) as (reason & H & Hreason).
    exists reason. destruct (Hshape _ _ _ _ H). auto.
  - intros env0 req0 w e user env req Ee He Hfind Hown Htoken Hpw w1.
    set (token := toHex (randomBytes env0 3)) in *.
    assert (Husers1 : users w1
              = updateRows (User.userid user)
                  (tokenIssued token (now env0 + 3600000)) (users w)).
    { subst w1. rewrite (forgot_valid env0 req0 w e Ee He), Hfind. reflexivity. }
    assert (Hown1 : ownedBy token (User.userid user) (users w1)).
    { intros v Hv Hcarries. rewrite Husers1 in Hv.
      now apply (issued_rows _ _ _ _ _ Hown Hv). }
    split.
    + intros Hlt.
      assert (Hrow : In (User.apply (tokenIssued token (now env0 + 3600000)) user)
                        (users w1)).
      { rewrite Husers1. apply find_some in Hfind. now apply updateRows_In. }
      destruct (find_In_some
                  (matches (WhereResetToken (params_token req) (now env)))
                  _ _ Hrow) as [found Hfound].
      { apply matches_token. rewrite Htoken. split; [reflexivity|].
        eexists. split; [reflexivity|exact Hlt]. }
      pose proof (reset_valid env req w1 Hpw) as Hrun. cbv zeta in Hrun.
      rewrite Hfound in Hrun.
      do 2 eexists. split; [exact Hrun|]. split; [reflexivity|].
      intros env2 req2 Htok2.
      assert (Hsingle : singleOwner (params_token req) (users w1)).
      { exists (User.userid user). now rewrite Htoken. }
      destruct (reset_replay_refused _ _ _ _ _ env2 req2 Hrun Hsingle Htok2)
        as (reason & H & _).
      exists reason. apply Hshape. exact H.
    + intros Hge.
      rewrite (reset_valid env req w1 Hpw). cbv zeta.
      rewrite find_all_false; [reflexivity|].
      intros v Hv. destruct (matches _ v) eqn:Hm; [|reflexivity].
      apply matches_token in Hm as (Hcarries & expiry & Hexp & Hlt).
      rewrite Htoken in Hcarries. rewrite Husers1 in Hv.
      destruct (issued_rows _ _ _ _ _ Hown Hv Hcarries) as [_ Hexp'].
      rewrite Hexp' in Hexp. injection Hexp as <-. lia.
Qed.

(** ** Roles *)

Lemma userRoleOf_cases role :
  (includes allowedRoles role = false -> userRoleOf role = "user")
  /\ (includes allowedRoles role = true -> role = Some (userRoleOf role))
  /\ In (userRoleOf role) allowedRoles.
Proof.
  unfold userRoleOf. destruct (includes allowedRoles role) eqn:E.
  - destruct role as [r|]; [|discriminate]. repeat split; try discriminate.
    unfold includes in E. apply existsb_exists in E as (x & Hx & Heq).
    apply String.eqb_eq in Heq. now subst x.
  - repeat split; try discriminate. right. now left.
Qed.

Lemma login_users env req w : users (fst (PassportLogIn env req w)) = users w.
Proof.
  destruct (credentialsValid (req_body req)) eqn:Hvalid.
  - destruct (credentialsValid_fields _ Hvalid) as (e & p & Ee & Ep).
    rewrite (login_valid env req w e p Hvalid Ee Ep).
    destruct (localStrategy env (users w) e p) as [err|info|user];
      try reflexivity.
    unfold loginCallback. run_monad.
    destruct (sessionError env); [reflexivity|]. cbn -[matches projected].
    destruct (find _ (users w)); cbn -[matches projected]; [|reflexivity].
    destruct (loginError env); reflexivity.
  - destruct (login_invalid env req w Hvalid) as [reason ->]. reflexivity.
Qed.

(** What a request can do to the table: nothing, append the row of a new
    registration, or update the rows of one user without touching their
    role. *)
Lemma handle_users h env req w :
  users (fst (handle h env req w)) = users w
  \/ (exists e p ph,
        users (fst (handle h env req w))
        = (users w ++ [User.make (nextId w) e p
                         (userRoleOf (body_role (req_body req))) ph None None])%list)
  \/ (exists id c,
        users (fst (handle h env req w)) = updateRows id c (users w)).
Proof.
  destruct h; cbn [handle].
  - destruct (registrationValid (req_body req)) eqn:Hvalid.
    + destruct (registrationValid_fields _ Hvalid) as (e & p & ph & Ee & Ep & Eph).
      rewrite (register_valid env req w e p ph Hvalid Ee Ep Eph).
      destruct (find _ (users w)); [now left|].
      destruct (createPersists env); [|now left].
      right. left. exists e, p, ph. destruct (sessionError env); reflexivity.
    + destruct (register_invalid env req w Hvalid) as [reason ->]. now left.
  - left. apply login_users.
  - left. unfold PassportLogOut. run_monad. destruct (destroyError env); reflexivity.
  - destruct (validateEmail (body_email (req_body req))) eqn:He.
    + destruct (validateEmail_defined _ He) as [e Ee]. rewrite Ee in He.
      rewrite (forgot_valid env req w e Ee He).
      destruct (find _ (users w)); [|now left].
      right. right. do 2 eexists. reflexivity.
    + left. unfold ForgotPassword. rewrite He. reflexivity.
  - destruct (validatePassword (body_newPassword (req_body req))) eqn:Hpw.
    + rewrite (reset_valid env req w Hpw). cbv zeta.
      destruct (find _ (users w)); [|now left].
      right. right. do 2 eexists. reflexivity.
    + rewrite (reset_weak env req w Hpw). now left.
Qed.

Lemma updateRows_roles id c us :
  Forall roleAllowed us -> Forall roleAllowed (updateRows id c us).
Proof.
  unfold updateRows. induction 1 as [|u us Hu _ IH]; simpl; constructor; auto.
  destruct (User.userid u =? id); exact Hu.
Qed.

(** Every request keeps the roles of the table among the allowed ones. *)
Lemma handle_preserves_roles h env req w :
  Forall roleAllowed (users w) ->
  Forall roleAllowed (users (fst (handle h env req w))).
Proof.
  intros Hroles.
  destruct (handle_users h env req w) as [->|[(e & p & ph & ->)|(id & c & ->)]].
  - exact Hroles.
  - apply Forall_app. split; [exact Hroles|].
    constructor; [|constructor]. apply userRoleOf_cases.
  - now apply updateRows_roles.
Qed.

(** C8.  A valid registration of a free email, once [User.create] answers
    with a row, appends one row to the table: its role is ['user'] when the
    submitted role is absent or is neither ['admin'] nor ['user'], and the
    submitted role otherwise.  Whatever the request, registration keeps every
    role of the table in [allowedRoles], and so does every handler: in every
    table the service can reach, each row has role ['admin'] or ['user']. *)
Theorem created_role_allowed :
  (forall env req w e,
     registrationValid (req_body req) = true ->
     body_email (req_body req) = Some e ->
     find (matches (WhereEmail e)) (users w) = None ->
     createPersists env = true ->
     exists u,
       users (fst (PassportRegister env req w)) = (users w ++ [u])%list
       /\ User.email u = e
       /\ (includes allowedRoles (body_role (req_body req)) = false ->
           User.role u = "user")
       /\ (includes allowedRoles (body_role (req_body req)) = true ->
           body_role (req_body req) = Some (User.role u))
       /\ (User.role u = "admin" \/ User.role u = "user"))
  /\ (forall env req w,
        Forall roleAllowed (users w) ->
        Forall roleAllowed (users (fst (PassportRegister env req w))))
  /\ (forall w,
        reachable w ->
        forall u, In u (users w) -> User.role u = "admin" \/ User.role u = "user").
Proof.
  assert (Hallowed : forall r, In r allowedRoles -> r = "admin" \/ r = "user").
  { intros r [<-|[<-|[]]]; auto. }
  split; [|split].
  - intros env req w e Hvalid Ee Hfree Hcreate.
    destruct (registrationValid_fields _ Hvalid) as (e' & p & ph & Ee' & Ep & Eph).
    rewrite Ee in Ee'. injection Ee' as <-.
    rewrite (register_valid env req w e p ph Hvalid Ee Ep Eph), Hfree, Hcreate.
    destruct (userRoleOf_cases (body_role (req_body req))) as (Hdefault & Hkept & Hin).
    eexists. split; [destruct (sessionError env); reflexivity|].
    cbn [User.role User.email]. auto.
  - intros env req w. apply (handle_preserves_roles Register).
  - intros w Hreach.
    assert (Hroles : Forall roleAllowed (users w)).
    { induction Hreach as [|h env req w _ IH]; [constructor|].
      now apply handle_preserves_roles. }
    intros u Hu. apply Hallowed.
    exact (proj1 (Forall_forall roleAllowed (users w)) Hroles u Hu).
Qed.

(** * The properties on sample runs *)

Lemma register_rejects_invalid_input_witness :
  (absentOrEmpty (body_email (req_body noEmail))
   /\ exists reason,
        PassportRegister (envAt 300) noEmail twoUsers
        = (twoUsers, Threw (ApiError 400 (Some reason))))
  /\ (validateEmail (body_email (req_body badEmail)) = false
      /\ PassportRegister (envAt 300) badEmail twoUsers
         = (twoUsers, Threw (ApiError 400 (Some "Invalid email format."))))
  /\ (validatePassword (body_password (req_body weakPassword)) = false
      /\ PassportRegister (envAt 300) weakPassword twoUsers
         = (twoUsers, Threw (ApiError 400 (Some weakPasswordMessage))))
  /\ (validatePhoneNumber (body_phoneNumber (req_body badPhone)) = false
      /\ PassportRegister (envAt 300) badPhone twoUsers
         = (twoUsers,
            Threw (ApiError 400
              (Some "Phone number must be in the format +91 followed by 10 digits.")))).
Proof.
  split; [|split; [|split]].
  - split; [left; reflexivity|].
    destruct (proj1 (register_rejects_invalid_input (envAt 300) noEmail twoUsers))
      as (reason & _ & Hrun).
    + left. left. reflexivity.
    + exists reason. exact Hrun.
  - split; [reflexivity|].
    apply (proj1 (proj2 (register_rejects_invalid_input (envAt 300) badEmail
                           twoUsers))); reflexivity.
  - split; [reflexivity|].
    apply (proj1 (proj2 (proj2 (register_rejects_invalid_input (envAt 300)
                                  weakPassword twoUsers)))); reflexivity.
  - split; [reflexivity|].
    apply (proj2 (proj2 (proj2 (register_rejects_invalid_input (envAt 300)
                                  badPhone twoUsers)))); reflexivity.
Defined.

Lemma register_existing_email_conflict_witness :
  registrationValid (req_body registerAlice) = true
  /\ PassportRegister (envAt 300) registerAlice twoUsers
     = (logged [StoreFindOne (WhereEmail "a@b.com")] twoUsers,
        Threw (ApiError 409 (Some "User already exists.")))
  /\ List.length
       (withEmail "e@f.net"
          (users (fst (PassportRegister (envAt 400) registerEve
                         (fst (PassportRegister (envAt 300) registerEve
                                 twoUsers))))))
     = 1%nat.
Proof.
  split; [reflexivity|]. split.
  - apply (proj1 (register_existing_email_conflict (envAt 300) (envAt 300)
                    registerAlice registerAlice twoUsers "a@b.com"
                    eq_refl eq_refl)).
    eexists. split; [left; reflexivity|reflexivity].
  - refine (proj2 (proj2 (register_existing_email_conflict (envAt 300) (envAt 400)
                            registerEve registerEve twoUsers "e@f.net"
                            eq_refl eq_refl) eq_refl _ _ _)).
    vm_compute. reflexivity.
Defined.

Lemma success_body_excludes_password_witness :
  (exists w' r,
     PassportRegister (envAt 300) registerEve twoUsers = (w', Returned r)
     /\ status r = 201
     /\ has_key "password" (data (body r)) = false)
  /\ (exists w' r,
        PassportLogIn (envAt 300) loginAlice twoUsers = (w', Returned r)
        /\ status r = 200
        /\ has_key "password" (data (body r)) = false).
Proof.
  split.
  - do 2 eexists.
    assert (Hrun : PassportRegister (envAt 300) registerEve twoUsers
                   = (fst (PassportRegister (envAt 300) registerEve twoUsers),
                      Returned
                        (respond 201 []
                           {| statusCode := 201;
                              data := User.project ["password"]
                                        (User.make 3 "e@f.net" "Abcd1!" "user"
                                           "+919876543210" None None);
                              message := "User registered successfully." |})))
      by (vm_compute; reflexivity).
    split; [exact Hrun|].
    destruct (proj1 (success_body_excludes_password _ _ _ _ _) Hrun)
      as (Hstatus & _ & Hkey).
    split; [exact Hstatus|exact Hkey].
  - do 2 eexists.
    assert (Hrun : PassportLogIn (envAt 300) loginAlice twoUsers
                   = (fst (PassportLogIn (envAt 300) loginAlice twoUsers),
                      Returned
                        (respond 200
                           [SetCookie "session_cookie" (JNum 1)
                              {| httpOnly := Some true; sameSite := Some "strict";
                                 secure := None |}]
                           {| statusCode := 200;
                              data := JObj
                                [("user",
                                  User.project ["password"]
                                    (User.make 1 "a@b.com" "Abcd1!" "user"
                                       "+919876543210" None None))];
                              message := "Login successful" |})))
      by (vm_compute; reflexivity).
    split; [exact Hrun|]. split; [reflexivity|].
    exact (proj2 (proj2 (success_body_excludes_password _ _ _ _ _) Hrun)).
Defined.

Lemma login_sets_session_cookie_witness :
  exists w' r,
    PassportLogIn (envAt 300) loginAlice twoUsers = (w', Returned r)
    /\ status r = 200
    /\ cookies r
       = [SetCookie "session_cookie" (JNum 1)
            {| httpOnly := Some true; sameSite := Some "strict";
               secure := None |}]
    /\ userId (session w') = Some 1.
Proof.
  exists (fst (PassportLogIn (envAt 300) loginAlice twoUsers)).
  exists (respond 200
            [SetCookie "session_cookie" (JNum 1)
               {| httpOnly := Some true; sameSite := Some "strict";
                  secure := None |}]
            {| statusCode := 200;
               data := JObj
                 [("user",
                   User.project ["password"]
                     (User.make 1 "a@b.com" "Abcd1!" "user" "+919876543210"
                        None None))];
               message := "Login successful" |}).
  assert (Hrun : PassportLogIn (envAt 300) loginAlice twoUsers
                 = (fst (PassportLogIn (envAt 300) loginAlice twoUsers),
                    Returned
                      (respond 200
                         [SetCookie "session_cookie" (JNum 1)
                            {| httpOnly := Some true; sameSite := Some "strict";
                               secure := None |}]
                         {| statusCode := 200;
                            data := JObj
                              [("user",
                                User.project ["password"]
                                  (User.make 1 "a@b.com" "Abcd1!" "user"
                                     "+919876543210" None None))];
                            message := "Login successful" |})))
    by (vm_compute; reflexivity).
  split; [exact Hrun|]. split; [reflexivity|].
  destruct (login_sets_session_cookie _ _ _ _ _ Hrun eq_refl)
    as (e & p & user & Ee & Ep & Hauth & Hcookies & Hsession).
  injection Ee as <-. injection Ep as <-.
  vm_compute in Hauth. injection Hauth as <-.
  split; [exact Hcookies|exact Hsession].
Defined.

(** C3, as claimed, fails: [a@b.com] has a row, and a registration with that
    email and a weak password is answered with the 400 of the password
    check, not with a 409; the lookup is not even made. *)
Lemma register_existing_email_weak_password :
  (exists u, In u (users twoUsers) /\ User.email u = "a@b.com")
  /\ body_email (req_body weakPassword) = Some "a@b.com"
  /\ PassportRegister (envAt 300) weakPassword twoUsers
     = (twoUsers, Threw (ApiError 400 (Some weakPasswordMessage)))
  /\ snd (PassportRegister (envAt 300) weakPassword twoUsers)
     <> Threw (ApiError 409 (Some "User already exists.")).
Proof.
  split.
  { eexists. split; [left; reflexivity|reflexivity]. }
  split; [reflexivity|]. split; [reflexivity|].
  cbn. discriminate.
Qed.


Lemma login_refusal_forwards_reason_witness :
  credentialsValid (req_body wrongPassword) = true
  /\ credentialsValid (req_body unknownEmail) = true
  /\ exists r1 r2,
       PassportLogIn (envAt 300) wrongPassword twoUsers
       = (logged [Authenticate "a@b.com" "Abcd1?"] twoUsers, Returned r1)
       /\ PassportLogIn (envAt 300) unknownEmail twoUsers
          = (logged [Authenticate "x@y.com" "Abcd1?"] twoUsers, Returned r2)
       /\ status r1 = 401 /\ status r2 = 401
       /\ message (body r1) = "Incorrect password."
       /\ message (body r2) = "Incorrect email.".
Proof.
  split; [reflexivity|]. split; [reflexivity|].
  destruct (login_refusal_forwards_reason (envAt 300) (envAt 300)
              wrongPassword unknownEmail twoUsers twoUsers
              "a@b.com" "Abcd1?" "x@y.com" "Abcd1?"
              (Some "Incorrect password.") (Some "Incorrect email.")
              eq_refl eq_refl eq_refl eq_refl eq_refl eq_refl eq_refl eq_refl)
    as (r1 & r2 & H1 & H2 & S1 & S2 & M1 & M2 & _).
  exists r1, r2. repeat split; assumption.
Defined.

Lemma login_rejects_weak_password_witness :
  validatePassword (body_password (req_body weakPassword)) = false
  /\ localStrategy (envAt 300) (users twoUsers) "c@d.org" "Efgh2?"
     = AuthSuccess (User.make 2 "c@d.org" "Efgh2?" "user" "+919876543210"
                      None None)
  /\ PassportLogIn (envAt 300) weakPassword twoUsers
     = (twoUsers, Threw (ApiError 400 (Some weakPasswordMessage))).
Proof.
  split; [reflexivity|]. split; [reflexivity|].
  apply (proj1 (proj2 (login_rejects_weak_password (envAt 300) weakPassword
                         twoUsers eq_refl)));
    reflexivity.
Defined.

Lemma logout_outcome_witness :
  (destroyError failingDestroy = Some "store unavailable"
   /\ exists r,
        snd (PassportLogOut failingDestroy loginAlice twoUsers) = Returned r
        /\ status r = 500 /\ cookies r = [])
  /\ (destroyError (envAt 300) = None
      /\ exists r,
           snd (PassportLogOut (envAt 300) loginAlice twoUsers) = Returned r
           /\ status r = 200
           /\ cookies r
              = [ClearCookie "connect.sid"
                   {| httpOnly := Some true; sameSite := None;
                      secure := Some true |}]
           /\ session (fst (PassportLogOut (envAt 300) loginAlice twoUsers))
              = emptySession).
Proof.
  split.
  - split; [reflexivity|].
    rewrite (proj1 (logout_outcome failingDestroy loginAlice twoUsers)
               "store unavailable" eq_refl).
    eexists. repeat split.
  - split; [reflexivity|].
    rewrite (proj2 (logout_outcome (envAt 300) loginAlice twoUsers) eq_refl).
    eexists. repeat split.
Defined.

Lemma forgot_password_issues_token_witness :
  validateEmail (Some "a@b.com") = true
  /\ toHex (randomBytes (envAt 1000) 3) = "a10bc3"
  /\ In (User.make 1 "a@b.com" "Abcd1!" "user" "+919876543210"
           (Some "a10bc3") (Some 3601000))
        (users (fst (ForgotPassword (envAt 1000) registerAlice twoUsers)))
  /\ (exists r,
        snd (ForgotPassword (envAt 1000) registerAlice twoUsers) = Returned r)
  /\ ForgotPassword (envAt 1000) unknownEmail twoUsers
     = (logged [StoreFindOne (WhereEmail "x@y.com")] twoUsers,
        Threw (ApiError 404 (Some "User with this email does not exist."))).
Proof.
  split; [reflexivity|]. split; [reflexivity|].
  pose proof (forgot_password_issues_token (envAt 1000) registerAlice twoUsers
                "a@b.com" eq_refl eq_refl) as H.
  cbv zeta in H. destruct H as [_ H].
  destruct (H (User.make 1 "a@b.com" "Abcd1!" "user" "+919876543210" None None)
              eq_refl)
    as (_ & _ & _ & _ & _ & Hin & _ & _ & _ & _ & Hanswer).
  split; [exact Hin|]. split; [exact (Hanswer eq_refl)|].
  exact (proj1 (forgot_password_issues_token (envAt 1000) unknownEmail twoUsers
                  "x@y.com" eq_refl eq_refl) eq_refl).
Defined.

(** C1, as claimed, fails: two users asked for a reset and the same three
    bytes were drawn for both, so their rows carry the same token.  The
    first reset with that token is accepted, and so is the second, which
    changes the password of the other user. *)
Lemma reset_token_replayed :
  map User.resetToken (users bothPending) = [Some "a10bc3"; Some "a10bc3"]
  /\ exists w1 r1 w2 r2,
       ResetPassword (envAt 3000) resetRequest bothPending = (w1, Returned r1)
       /\ ResetPassword (envAt 4000) resetRequest w1 = (w2, Returned r2)
       /\ status r1 = 200 /\ status r2 = 200
       /\ map User.password (users bothPending) = ["Abcd1!"; "Efgh2?"]
       /\ map User.password (users w1) = ["Newp1!"; "Efgh2?"]
       /\ map User.password (users w2) = ["Newp1!"; "Newp1!"]
       /\ users w2 <> users w1.
Proof.
  split; [reflexivity|].
  do 4 eexists. split; [vm_compute; reflexivity|].
  split; [vm_compute; reflexivity|].
  do 5 (split; [reflexivity|]).
  intros H. apply (f_equal (map User.password)) in H. discriminate H.
Qed.

Lemma reset_token_single_use_witness :
  (exists w' r,
     ResetPassword (envAt 3000) resetRequest pendingReset = (w', Returned r)
     /\ singleOwner "a10bc3" (users pendingReset)
     /\ map User.password (users w') = ["Newp1!"; "Efgh2?"]
     /\ exists reason,
          snd (ResetPassword (envAt 4000) resetRequest w')
          = Threw (ApiError 400 (Some reason))
          /\ users (fst (ResetPassword (envAt 4000) resetRequest w')) = users w'
          /\ reason = "Invalid or expired reset token.")
  /\ (exists reason,
        snd (ResetPassword (envAt 3601000) resetRequest pendingReset)
        = Threw (ApiError 400 (Some reason))
        /\ users (fst (ResetPassword (envAt 3601000) resetRequest pendingReset))
           = users pendingReset)
  /\ (ownedBy "a10bc3" 1 (users twoUsers)
      /\ (exists w2 r,
            ResetPassword (envAt 3600999) resetRequest pendingReset
            = (w2, Returned r) /\ status r = 200)
      /\ ResetPassword (envAt 3601000) resetRequest pendingReset
         = (logged [StoreFindOne (WhereResetToken "a10bc3" 3601000)] pendingReset,
            Threw (ApiError 400 (Some "Invalid or expired reset token.")))).
Proof.
  destruct reset_token_single_use as (Honly & Hreplay & Hexpired & Hissued).
  assert (Hrun : ResetPassword (envAt 3000) resetRequest pendingReset
                 = (fst (ResetPassword (envAt 3000) resetRequest pendingReset),
                    Returned
                      (respond 200 []
                         {| statusCode := 200; data := JObj [];
                            message := "Password reset successfully" |})))
    by (vm_compute; reflexivity).
  assert (Hsingle : singleOwner "a10bc3" (users pendingReset)).
  { exists 1. intros v [<-|[<-|[]]]; [reflexivity|discriminate]. }
  split; [|split].
  - do 2 eexists. split; [exact Hrun|]. split; [exact Hsingle|].
    split; [reflexivity|].
    destruct (Hreplay _ _ _ _ _ (envAt 4000) resetRequest Hrun Hsingle eq_refl)
      as (reason & Hthrown & Husers & Hreason).
    exists reason. split; [exact Hthrown|]. split; [exact Husers|].
    apply Hreason. reflexivity.
  - destruct (Hexpired (envAt 3601000) resetRequest pendingReset)
      as (reason & Hthrown & Husers & _).
    + intros u expiry [<-|[<-|[]]]; [|discriminate].
      intros _ [= <-]. cbn. lia.
    + exists reason. split; assumption.
  - assert (Hown : ownedBy "a10bc3" 1 (users twoUsers)).
    { intros v [<-|[<-|[]]]; discriminate. }
    split; [exact Hown|].
    destruct (Hissued (envAt 1000) registerAlice twoUsers "a@b.com"
                (User.make 1 "a@b.com" "Abcd1!" "user" "+919876543210" None None)
                (envAt 3600999) resetRequest
                eq_refl eq_refl eq_refl Hown eq_refl eq_refl)
      as [Hwithin _].
    destruct (Hwithin ltac:(cbn; lia)) as (w2 & r & Hrun2 & Hstatus & _).
    split; [exists w2, r; split; assumption|].
    destruct (Hissued (envAt 1000) registerAlice twoUsers "a@b.com"
                (User.make 1 "a@b.com" "Abcd1!" "user" "+919876543210" None None)
                (envAt 3601000) resetRequest
                eq_refl eq_refl eq_refl Hown eq_refl eq_refl)
      as [_ Hafter].
    exact (Hafter ltac:(cbn; lia)).
Defined.

Lemma created_role_allowed_witness :
  registrationValid (req_body registerEve) = true
  /\ includes allowedRoles (body_role (req_body registerEve)) = false
  /\ (exists u,
        users (fst (PassportRegister (envAt 300) registerEve twoUsers))
        = (users twoUsers ++ [u])%list
        /\ User.email u = "e@f.net" /\ User.role u = "user")
  /\ reachable twoUsers
  /\ Forall (fun u => User.role u = "admin" \/ User.role u = "user")
       (users twoUsers).
Proof.
  destruct created_role_allowed as (Hcreated & _ & Hreachable).
  split; [reflexivity|]. split; [reflexivity|].
  assert (Hreach : reachable twoUsers).
  { exact (reachable_handle Register (envAt 200)
             (request (credentials "c@d.org" "Efgh2?") "") _
             (reachable_handle Register (envAt 100)
                (request (credentials "a@b.com" "Abcd1!") "") _
                reachable_initial)). }
  split; [|split; [exact Hreach|]].
  - destruct (Hcreated (envAt 300) registerEve twoUsers "e@f.net"
                eq_refl eq_refl eq_refl eq_refl)
      as (u & Husers & Hemail & Hdefault & _).
    exists u. split; [exact Husers|]. split; [exact Hemail|].
    apply Hdefault. reflexivity.
  - apply Forall_forall. exact (Hreachable twoUsers Hreach).
Defined.

(** * Further properties of the controller *)

(** ** What a request does to the table *)

(** The effect of a request on the table, with what made it: nothing; the
    row of a valid registration of a free email; the token issued to a user
    found; the strong password written for a user found. *)
Lemma handle_effect h env req w :
  users (fst (handle h env req w)) = users w
  \/ (exists e p ph,
        registrationValid (req_body req) = true
        /\ body_email (req_body req) = Some e
        /\ body_password (req_body req) = Some p
        /\ body_phoneNumber (req_body req) = Some ph
        /\ find (matches (WhereEmail e)) (users w) = None
        /\ users (fst (handle h env req w))
           = (users w ++ [User.make (nextId w) e p
                            (userRoleOf (body_role (req_body req))) ph
                            None None])%list)
  \/ (exists user,
        In user (users w)
        /\ users (fst (handle h env req w))
           = updateRows (User.userid user)
               (tokenIssued (toHex (randomBytes env 3)) (now env + 3600000))
               (users w))
  \/ (exists user p,
        In user (users w)
        /\ validatePassword (Some p) = true
        /\ users (fst (handle h env req w))
           = updateRows (User.userid user) (passwordReset (Some p)) (users w)).
Proof.
  destruct h; cbn [handle].
  - destruct (registrationValid (req_body req)) eqn:Hvalid.
    + destruct (registrationValid_fields _ Hvalid) as (e & p & ph & Ee & Ep & Eph).
      rewrite (register_valid env req w e p ph Hvalid Ee Ep Eph).
      destruct (find _ (users w)) eqn:Hfind; [now left|].
      destruct (createPersists env); [|now left].
      right. left. exists e, p, ph. repeat split; try assumption.
      destruct (sessionError env); reflexivity.
    + destruct (register_invalid env req w Hvalid) as [reason ->]. now left.
  - left. apply login_users.
  - left. unfold PassportLogOut. run_monad. destruct (destroyError env); reflexivity.
  - destruct (validateEmail (body_email (req_body req))) eqn:He.
    + destruct (validateEmail_defined _ He) as [e Ee]. rewrite Ee in He.
      rewrite (forgot_valid env req w e Ee He).
      destruct (find _ (users w)) as [user|] eqn:Hfind; [|now left].
      right. right. left. exists user. split; [|reflexivity].
      apply find_some in Hfind. apply Hfind.
    + left. unfold ForgotPassword. rewrite He. reflexivity.
  - destruct (validatePassword (body_newPassword (req_body req))) eqn:Hpw.
    + rewrite (reset_valid env req w Hpw). cbv zeta.
      destruct (find _ (users w)) as [user|] eqn:Hfind; [|now left].
      destruct (validatePassword_defined _ Hpw) as [p Ep]. rewrite Ep in *.
      right. right. right. exists user, p. repeat split; try assumption.
      apply find_some in Hfind. apply Hfind.
    + rewrite (reset_weak env req w Hpw). now left.
Qed.

Lemma updateRows_Forall (P : User.t -> Prop) id c us :
  (forall u, P u -> P (User.apply c u)) ->
  Forall P us -> Forall P (updateRows id c us).
Proof.
  intros Hc. unfold updateRows.
  induction 1 as [|u us Hu _ IH]; simpl; constructor; auto.
  destruct (User.userid u =? id); auto.
Qed.

(** A property of rows holds in every table the service can reach when the
    rows of valid registrations have it and the two updates keep it. *)
Lemma reachable_rows (P : User.t -> Prop) :
  (forall id e p r ph,
     validateEmail (Some e) = true -> validatePassword (Some p) = true ->
     validatePhoneNumber (Some ph) = true -> In r allowedRoles ->
     P (User.make id e p r ph None None)) ->
  (forall env u,
     P u ->
     P (User.apply (tokenIssued (toHex (randomBytes env 3)) (now env + 3600000))
          u)) ->
  (forall p u,
     validatePassword (Some p) = true ->
     P u -> P (User.apply (passwordReset (Some p)) u)) ->
  forall w, reachable w -> Forall P (users w).
Proof.
  intros Hnew Hissue Hreset w Hreach.
  induction Hreach as [|h env req w _ IH]; [constructor|].
  destruct (handle_effect h env req w)
    as [->|[(e & p & ph & Hvalid & Ee & Ep & Eph & _ & ->)
           |[(user & _ & ->)|(user & p & _ & Hp & ->)]]].
  - exact IH.
  - apply Forall_app. split; [exact IH|]. constructor; [|constructor].
    unfold registrationValid in Hvalid. rewrite Ee, Ep, Eph in Hvalid.
    rewrite !andb_true_iff in Hvalid. destruct Hvalid as [[[_ He] Hpw] Hph].
    apply Hnew; try assumption. apply userRoleOf_cases.
  - apply updateRows_Forall; [apply Hissue|exact IH].
  - apply updateRows_Forall; [intros u; now apply Hreset|exact IH].
Qed.

Lemma updateRows_identityOf id c us :
  map identityOf (updateRows id c us) = map identityOf us.
Proof.
  unfold updateRows. rewrite map_map. apply map_ext.
  intros u. destruct (User.userid u =? id); reflexivity.
Qed.

Lemma updateRows_length id c us :
  List.length (updateRows id c us) = List.length us.
Proof. unfold updateRows. apply length_map. Qed.

(** Only a registration changes the number of rows. *)
Lemma handle_length h env req w :
  h <> Register ->
  List.length (users (fst (handle h env req w))) = List.length (users w).
Proof.
  intros Hh. destruct h; [contradiction| | | |]; cbn [handle].
  - now rewrite login_users.
  - unfold PassportLogOut. run_monad. destruct (destroyError env); reflexivity.
  - destruct (validateEmail (body_email (req_body req))) eqn:He.
    + destruct (validateEmail_defined _ He) as [e Ee]. rewrite Ee in He.
      rewrite (forgot_valid env req w e Ee He).
      destruct (find _ (users w)); [apply updateRows_length|reflexivity].
    + unfold ForgotPassword. rewrite He. reflexivity.
  - destruct (validatePassword (body_newPassword (req_body req))) eqn:Hpw.
    + rewrite (reset_valid env req w Hpw). cbv zeta.
      destruct (find _ (users w)); [apply updateRows_length|reflexivity].
    + now rewrite (reset_weak env req w Hpw).
Qed.

(** X1.  No handler removes a row, reorders the table or changes the
    [userid], [email], [role] or [phoneNumber] of a row: after any request
    these columns are as before, except that a registration may have added
    one row at the end, with the submitted email and phone number. *)
Theorem handlers_keep_identities (h : Handler) (env : Env) (req : Request)
    (w : World) :
  map identityOf (users (fst (handle h env req w))) = map identityOf (users w)
  \/ (exists e ph,
        h = Register
        /\ body_email (req_body req) = Some e
        /\ body_phoneNumber (req_body req) = Some ph
        /\ map identityOf (users (fst (handle h env req w)))
           = (map identityOf (users w)
              ++ [(nextId w, e, userRoleOf (body_role (req_body req)), ph)])%list).
Proof.
  destruct (handle_effect h env req w)
    as [->|[(e & p & ph & _ & Ee & _ & Eph & _ & Husers)
           |[(user & _ & ->)|(user & p & _ & _ & ->)]]].
  - now left.
  - right. exists e, ph. rewrite Husers, map_app. repeat split; try assumption.
    destruct h; [reflexivity| | | |];
      match type of Husers with
      | users (fst (handle ?h0 _ _ _)) = _ =>
          assert (Hlen := handle_length h0 env req w ltac:(discriminate))
      end;
      rewrite Husers, length_app in Hlen; cbn in Hlen; lia.
  - left. apply updateRows_identityOf.
  - left. apply updateRows_identityOf.
Qed.

(** ** Invariants of the table *)

(** X3.  In every table the service can reach, each row has its reset token
    and its expiration both set or both null, and a token that is set is six
    hex digits: only [ForgotPassword] sets them, together, and only
    [ResetPassword] nulls them, together. *)
Theorem tokens_well_formed (w : World) :
  reachable w -> forall u, In u (users w) -> tokenWellFormed u.
Proof.
  intros Hreach. apply Forall_forall. revert w Hreach.
  apply reachable_rows.
  - intros. exact I.
  - intros env u _. unfold tokenWellFormed.
    cbn -[toHex randomBytes Z.add String.length chars]. split.
    + now rewrite toHex_length, randomBytes_length.
    + apply toHex_is_hex.
  - intros p u _ _. exact I.
Qed.

(** X4.  In every table the service can reach, the email and the phone
    number of each row pass [validateEmail] and [validatePhoneNumber]: only
    [PassportRegister] writes them, after its checks, and no update touches
    them.  (Nothing is said of the password column: the [User] model
    hashes what it is handed.) *)
Theorem stored_fields_valid (w : World) :
  reachable w -> forall u, In u (users w) -> fieldsValid u.
Proof.
  intros Hreach. apply Forall_forall. revert w Hreach.
  apply reachable_rows.
  - intros id e p r ph He _ Hph _. split; assumption.
  - intros env u Hu. exact Hu.
  - intros p u _ Hu. exact Hu.
Qed.

(** ** Registration: what happens after the checks *)

(** X6.  Nothing is rolled back when the session cannot be bound after the
    row was created: the registration fails with the error of the session
    store, but the row is in the table, so registering the same email again
    is a conflict. *)
Theorem register_not_rolled_back
    (env : Env) (req : Request) (w : World) (e err : string) :
  registrationValid (req_body req) = true ->
  body_email (req_body req) = Some e ->
  find (matches (WhereEmail e)) (users w) = None ->
  createPersists env = true ->
  sessionError env = Some err ->
  snd (PassportRegister env req w) = Threw (Error err)
  /\ List.length (withEmail e (users (fst (PassportRegister env req w)))) = 1%nat
  /\ forall env2,
       PassportRegister env2 req (fst (PassportRegister env req w))
       = (logged [StoreFindOne (WhereEmail e)] (fst (PassportRegister env req w)),
          Threw (ApiError 409 (Some "User already exists."))).
Proof.
  intros Hvalid Ee Hfree Hcreate Hsession.
  destruct (registrationValid_fields _ Hvalid) as (e' & p & ph & Ee' & Ep & Eph).
  rewrite Ee in Ee'. injection Ee' as <-.
  rewrite (register_valid env req w e p ph Hvalid Ee Ep Eph),
    Hfree, Hcreate, Hsession.
  cbn [fst snd]. split; [reflexivity|]. split.
  - cbn [users]. unfold withEmail.
    rewrite filter_app, (find_filter_nil _ _ Hfree).
    cbn [filter matches User.email app]. rewrite String.eqb_refl. reflexivity.
  - intros env2.
    rewrite (register_valid env2 req _ e p ph Hvalid Ee Ep Eph). cbn [users].
    rewrite (find_app_none _ _ _ Hfree). cbn [find matches User.email].
    rewrite String.eqb_refl. reflexivity.
Qed.

(** ** Login: every path of the callback *)

(** What the callback does with an accepted user, by cases on the
    collaborators and on the table. *)
Lemma loginCallback_accepted env user w :
  let id := User.userid user in
  let lookup := WhereEmail (User.email user) in
  let bound := {| userId := Some id; passportUser := passportUser (session w) |} in
  loginCallback env (AuthSuccess user) w
  = match sessionError env with
    | Some err => (logged [SessionBind id] w, Threw (Error err))
    | None =>
        match find (matches lookup) (users w) with
        | None =>
            ({| users := users w; nextId := nextId w; session := bound;
                calls := calls w ++ [SessionBind id; StoreFindOne lookup] |},
             Threw (ApiError 404 (Some "User not found.")))
        | Some found =>
            match loginError env with
            | Some err =>
                ({| users := users w; nextId := nextId w; session := bound;
                    calls := calls w ++ [SessionBind id; StoreFindOne lookup;
                                         SessionLogin] |},
                 Threw (Error err))
            | None =>
                ({| users := users w; nextId := nextId w;
                    session := {| userId := Some id;
                                  passportUser :=
                                    Some (User.project ["password"] found) |};
                    calls := calls w ++ [SessionBind id; StoreFindOne lookup;
                                         SessionLogin] |},
                 Returned
                   (respond 200
                      [SetCookie "session_cookie" (JNum id)
                         {| httpOnly := Some true; sameSite := Some "strict";
                            secure := None |}]
                      {| statusCode := 200;
                         data := JObj [("user", User.project ["password"] found)];
                         message := "Login successful" |}))
            end
        end
    end.
Proof.
  cbv zeta. unfold loginCallback. run_monad.
  destruct (sessionError env); [reflexivity|]. cbn -[matches projected].
  destruct (find _ (users w)); cbn -[matches projected].
  - destruct (loginError env); cbn -[matches projected];
      rewrite <- !app_assoc; reflexivity.
  - rewrite <- !app_assoc. reflexivity.
Qed.

(** X7.  The checks of [PassportLogIn] run in the order required fields,
    email, password, before anything else: a reported missing field is
    answered with the 400 carrying that report, then a malformed email with
    the 400 ["Invalid email format."].  Every 400 thrown by a login leaves
    the world as it was and carries the report of the required-fields check,
    the email message or the password message; the fallback text of the
    first check is never what is sent unless the required-fields check
    reports it itself. *)
Theorem login_validation_order (env : Env) (req : Request) (w : World) :
  let required :=
    [("email", body_email (req_body req));
     ("password", body_password (req_body req))] in
  (forall reason,
     validateRequiredFields required = Some reason ->
     truthy (Some reason) = true ->
     PassportLogIn env req w = (w, Threw (ApiError 400 (Some reason))))
  /\ (truthy (validateRequiredFields required) = false ->
      validateEmail (body_email (req_body req)) = false ->
      PassportLogIn env req w
      = (w, Threw (ApiError 400 (Some "Invalid email format."))))
  /\ (forall w' m,
        PassportLogIn env req w = (w', Threw (ApiError 400 (Some m))) ->
        w' = w
        /\ (validateRequiredFields required = Some m
            \/ m = "Invalid email format." \/ m = weakPasswordMessage)).
Proof.
  intros required. split; [|split].
  - intros reason Hreason Htruthy. run_checks. fold required.
    rewrite Hreason, Htruthy. cbn [negb find fst]. f_equal. f_equal. f_equal.
    f_equal. cbn in Htruthy. cbn. destruct (reason =? "")%string; [discriminate|].
    reflexivity.
  - intros Hreq Hemail. run_checks. fold required. rewrite Hreq, Hemail.
    reflexivity.
  - intros w' m Hrun.
    destruct (credentialsValid (req_body req)) eqn:Hvalid.
    + exfalso.
      destruct (credentialsValid_fields _ Hvalid) as (e & p & Ee & Ep).
      rewrite (login_valid env req w e p Hvalid Ee Ep) in Hrun.
      destruct (localStrategy env (users w) e p) as [err|info|user].
      * discriminate.
      * discriminate.
      * rewrite loginCallback_accepted in Hrun.
        destruct (sessionError env); [discriminate|].
        destruct (find _ _); [|discriminate].
        destruct (loginError env); discriminate.
    + revert Hrun. unfold credentialsValid in Hvalid. run_checks. fold required.
      fold required in Hvalid.
      destruct (validateRequiredFields required) as [reason|] eqn:Hreason.
      * destruct (truthy (Some reason)) eqn:Htruthy; cbn [negb find fst].
        -- intros [= <- <-]. split; [reflexivity|]. left.
           cbn in Htruthy. cbn. destruct (reason =? "")%string; [discriminate|].
           reflexivity.
        -- cbn [negb andb] in Hvalid.
           destruct (validateEmail _); cbn [negb find fst].
           ++ destruct (validatePassword _); [discriminate|].
              cbn [negb find fst]. intros [= <- <-]. auto.
           ++ intros [= <- <-]. auto.
      * cbn [truthy negb find fst]. cbn [truthy negb andb] in Hvalid.
        destruct (validateEmail _); cbn [negb find fst].
        -- destruct (validatePassword _); [discriminate|].
           cbn [negb find fst]. intros [= <- <-]. auto.
        -- intros [= <- <-]. auto.
Qed.

(** X8.  A login that passes the checks, whose credentials the strategy
    accepts for a user whose email has a row, and during which neither the
    session nor [req.login] fails, answers 200: the table is as before, the
    session holds the user's [userid] and the row read without its password,
    and the calls made are, in order, the strategy, the binding of the
    session, the lookup by the user's email and [req.login]. *)
Theorem login_succeeds
    (env : Env) (req : Request) (w : World) (e p : string) (user found : User.t) :
  credentialsValid (req_body req) = true ->
  body_email (req_body req) = Some e ->
  body_password (req_body req) = Some p ->
  localStrategy env (users w) e p = AuthSuccess user ->
  find (matches (WhereEmail (User.email user))) (users w) = Some found ->
  sessionError env = None ->
  loginError env = None ->
  PassportLogIn env req w
  = ({| users := users w; nextId := nextId w;
        session := {| userId := Some (User.userid user);
                      passportUser := Some (User.project ["password"] found) |};
        calls := calls w ++ [Authenticate e p; SessionBind (User.userid user);
                             StoreFindOne (WhereEmail (User.email user));
                             SessionLogin] |},
     Returned
       (respond 200
          [SetCookie "session_cookie" (JNum (User.userid user))
             {| httpOnly := Some true; sameSite := Some "strict";
                secure := None |}]
          {| statusCode := 200;
             data := JObj [("user", User.project ["password"] found)];
             message := "Login successful" |})).
Proof.
  intros Hvalid Ee Ep Hauth Hfind Hsession Hlogin.
  rewrite (login_valid env req w e p Hvalid Ee Ep), Hauth.
  rewrite loginCallback_accepted. cbn [users logged session calls nextId].
  rewrite Hsession, Hfind, Hlogin. rewrite <- !app_assoc. reflexivity.
Qed.

(** X9.  After the checks, a login gives no answer, hence sets no cookie,
    in three cases, and never touches the table: an error of the strategy is
    passed on as it is, before the session is bound; an accepted user whose
    email has no row (any more) gives the 404 ["User not found."]; a failure
    of [req.login] is passed on as it is. *)
Theorem login_failures_after_checks
    (env : Env) (req : Request) (w : World) (e p : string) :
  credentialsValid (req_body req) = true ->
  body_email (req_body req) = Some e ->
  body_password (req_body req) = Some p ->
  (forall err,
     localStrategy env (users w) e p = AuthError err ->
     PassportLogIn env req w = (logged [Authenticate e p] w, Threw (Error err)))
  /\ (forall user,
        localStrategy env (users w) e p = AuthSuccess user ->
        sessionError env = None ->
        find (matches (WhereEmail (User.email user))) (users w) = None ->
        snd (PassportLogIn env req w) = Threw (ApiError 404 (Some "User not found."))
        /\ users (fst (PassportLogIn env req w)) = users w)
  /\ (forall user found err,
        localStrategy env (users w) e p = AuthSuccess user ->
        sessionError env = None ->
        find (matches (WhereEmail (User.email user))) (users w) = Some found ->
        loginError env = Some err ->
        snd (PassportLogIn env req w) = Threw (Error err)
        /\ users (fst (PassportLogIn env req w)) = users w).
Proof.
  intros Hvalid Ee Ep.
  rewrite (login_valid env req w e p Hvalid Ee Ep). split; [|split].
  - intros err ->. reflexivity.
  - intros user -> Hsession Hfind. rewrite loginCallback_accepted.
    cbn [users logged]. rewrite Hsession, Hfind. split; reflexivity.
  - intros user found err -> Hsession Hfind Hlogin.
    rewrite loginCallback_accepted. cbn [users logged].
    rewrite Hsession, Hfind, Hlogin. split; reflexivity.
Qed.

(** X10.  [PassportLogIn] and [PassportLogOut] only read the table: whatever
    the request and the collaborators, the rows are as before, and none of
    the calls they make is a [create] or an [update]. *)
Theorem login_logout_read_only (env : Env) (req : Request) (w : World) :
  (users (fst (PassportLogIn env req w)) = users w
   /\ exists made,
        calls (fst (PassportLogIn env req w)) = (calls w ++ made)%list
        /\ forallb (fun c => negb (is_store_write c)) made = true)
  /\ (users (fst (PassportLogOut env req w)) = users w
      /\ exists made,
           calls (fst (PassportLogOut env req w)) = (calls w ++ made)%list
           /\ forallb (fun c => negb (is_store_write c)) made = true).
Proof.
  split; split.
  - apply login_users.
  - destruct (credentialsValid (req_body req)) eqn:Hvalid.
    + destruct (credentialsValid_fields _ Hvalid) as (e & p & Ee & Ep).
      rewrite (login_valid env req w e p Hvalid Ee Ep).
      destruct (localStrategy env (users w) e p) as [err|info|user].
      * exists [Authenticate e p]. split; reflexivity.
      * exists [Authenticate e p]. split; reflexivity.
      * rewrite loginCallback_accepted. cbn [users logged session calls nextId].
        destruct (sessionError env).
        { eexists. cbn [fst logged calls]. rewrite <- app_assoc.
          split; reflexivity. }
        destruct (find _ (users w)).
        { destruct (loginError env); eexists; cbn [fst calls];
            rewrite <- app_assoc; split; reflexivity. }
        eexists. cbn [fst calls]. rewrite <- app_assoc. split; reflexivity.
    + destruct (login_invalid env req w Hvalid) as [reason ->].
      exists []. cbn [fst]. rewrite app_nil_r. split; reflexivity.
  - unfold PassportLogOut. run_monad. destruct (destroyError env); reflexivity.
  - exists [SessionDestroy]. unfold PassportLogOut. run_monad.
    destruct (destroyError env); split; reflexivity.
Qed.

(** ** Forgot password: what stays written *)

Lemma find_map_same {A} (f : A -> bool) (g : A -> A) (xs : list A) :
  (forall x, f (g x) = f x) ->
  find f (map g xs) = option_map g (find f xs).
Proof.
  intros Hfg. induction xs as [|x xs IH]; simpl; [reflexivity|].
  rewrite Hfg. destruct (f x); [reflexivity|exact IH].
Qed.

(** A lookup by email after an update finds the same row, updated. *)
Lemma find_email_updateRows e id c us :
  find (matches (WhereEmail e)) (updateRows id c us)
  = option_map (fun u => if User.userid u =? id then User.apply c u else u)
      (find (matches (WhereEmail e)) us).
Proof.
  unfold updateRows. apply find_map_same.
  intros u. destruct (User.userid u =? id); reflexivity.
Qed.

(** Issuing a token to a user twice leaves what the second issue wrote. *)
Lemma updateRows_reissue id t1 x1 t2 x2 us :
  updateRows id (tokenIssued t2 x2) (updateRows id (tokenIssued t1 x1) us)
  = updateRows id (tokenIssued t2 x2) us.
Proof.
  unfold updateRows. rewrite map_map. apply map_ext. intros u.
  destruct (User.userid u =? id) eqn:E; cbn [User.apply User.userid];
    rewrite E; reflexivity.
Qed.

(** X11.  Nothing is rolled back when the mail cannot be sent: the request
    fails with the error of the mailer, but the token and its expiration are
    written, and a reset with that token and a strong password, made before
    the hour has passed, is accepted. *)
Theorem forgot_mail_failure_keeps_token
    (env env2 : Env) (req req2 : Request) (w : World) (e err : string)
    (user : User.t) :
  body_email (req_body req) = Some e ->
  validateEmail (Some e) = true ->
  find (matches (WhereEmail e)) (users w) = Some user ->
  mailError env = Some err ->
  let token := toHex (randomBytes env 3) in
  let w1 := fst (ForgotPassword env req w) in
  snd (ForgotPassword env req w) = Threw (Error err)
  /\ In (User.apply (tokenIssued token (now env + 3600000)) user) (users w1)
  /\ (params_token req2 = token ->
      validatePassword (body_newPassword (req_body req2)) = true ->
      now env2 < now env + 3600000 ->
      exists w2 r, ResetPassword env2 req2 w1 = (w2, Returned r) /\ status r = 200).
Proof.
  intros Ee He Hfind Hmail token w1. subst w1.
  rewrite (forgot_valid env req w e Ee He), Hfind, Hmail. fold token.
  cbn [fst snd users]. split; [reflexivity|].
  assert (Hrow : In (User.apply (tokenIssued token (now env + 3600000)) user)
                   (updateRows (User.userid user)
                      (tokenIssued token (now env + 3600000)) (users w))).
  { apply find_some in Hfind. now apply updateRows_In. }
  split; [exact Hrow|].
  intros Htoken Hpw Hlt.
  pose proof (reset_valid env2 req2
                {| users := updateRows (User.userid user)
                              (tokenIssued token (now env + 3600000)) (users w);
                   nextId := nextId w; session := session w;
                   calls := calls w
                            ++ [StoreFindOne (WhereEmail e);
                                StoreUpdate (User.userid user);
                                SendMail (Some e)
                                  (protocol req ++ "://" ++ host req
                                   ++ "/verifyEmail/" ++ token)] |} Hpw) as Hrun.
  cbv zeta in Hrun. cbn [users] in Hrun.
  destruct (find_In_some
              (matches (WhereResetToken (params_token req2) (now env2)))
              _ _ Hrow) as [found Hfound].
  { apply matches_token. rewrite Htoken. split; [reflexivity|].
    eexists. split; [reflexivity|exact Hlt]. }
  rewrite Hfound in Hrun. do 2 eexists. split; [exact Hrun|reflexivity].
Qed.

(** X12.  Asking again overwrites: after two [ForgotPassword] requests for
    the same well-formed email the table is what the second request alone
    would have left, so the row carries the second token and the second
    expiration (and the table is untouched when no row has that email). *)
Theorem forgot_twice_overwrites
    (env1 env2 : Env) (req1 req2 : Request) (w : World) (e : string) :
  body_email (req_body req1) = Some e ->
  body_email (req_body req2) = Some e ->
  validateEmail (Some e) = true ->
  users (fst (ForgotPassword env2 req2 (fst (ForgotPassword env1 req1 w))))
  = users (fst (ForgotPassword env2 req2 w)).
Proof.
  intros Ee1 Ee2 He.
  rewrite (forgot_valid env1 req1 w e Ee1 He).
  destruct (find (matches (WhereEmail e)) (users w)) as [user|] eqn:Hfind.
  - cbn [fst]. rewrite !(forgot_valid env2 req2 _ e Ee2 He). cbn [users].
    rewrite find_email_updateRows, Hfind. cbn [option_map].
    rewrite Z.eqb_refl. cbn [fst users User.apply User.userid].
    apply updateRows_reissue.
  - cbn [fst]. rewrite !(forgot_valid env2 req2 _ e Ee2 He). cbn [users logged].
    rewrite Hfind. reflexivity.
Qed.

(** ** Reset password: all or nothing *)

(** X13.  A reset that is refused consumes no token: whenever
    [ResetPassword] throws a 400, the rows and the session are as they were,
    and the 400 is the one of the password check, thrown before any lookup,
    or the one of the lookup that found no row, thrown before any update. *)
Theorem reset_refusal_changes_nothing
    (env : Env) (req : Request) (w : World) (m : field) :
  snd (ResetPassword env req w) = Threw (ApiError 400 m) ->
  users (fst (ResetPassword env req w)) = users w
  /\ session (fst (ResetPassword env req w)) = session w
  /\ ((m = Some weakPasswordMessage
       /\ validatePassword (body_newPassword (req_body req)) = false
       /\ calls (fst (ResetPassword env req w)) = calls w)
      \/ (m = Some "Invalid or expired reset token."
          /\ find (matches (WhereResetToken (params_token req) (now env)))
               (users w) = None
          /\ calls (fst (ResetPassword env req w))
             = (calls w
                ++ [StoreFindOne
                      (WhereResetToken (params_token req) (now env))])%list)).
Proof.
  destruct (validatePassword (body_newPassword (req_body req))) eqn:Hpw.
  - rewrite (reset_valid env req w Hpw). cbv zeta.
    destruct (find _ (users w)) eqn:Hfind; [discriminate|].
    intros [= <-]. repeat split. right. repeat split.
  - rewrite (reset_weak env req w Hpw). intros [= <-]. repeat split.
    left. repeat split.
Qed.

Lemma updateRows_other id c us v :
  In v us -> User.userid v <> id -> In v (updateRows id c us).
Proof.
  intros Hin Hid. unfold updateRows. apply in_map_iff. exists v.
  apply Z.eqb_neq in Hid. rewrite Hid. auto.
Qed.

(** X14.  A reset with a strong new password and a token that some row
    carries, not yet expired, is accepted: the first such row is looked up,
    the rows of its user get the new password and lose the token, after one
    lookup and one update, and the rows of every other user, as well as the
    session, are left as they were. *)
Theorem reset_succeeds
    (env : Env) (req : Request) (w : World) (p : string) (u : User.t)
    (expiry : Z) :
  body_newPassword (req_body req) = Some p ->
  validatePassword (Some p) = true ->
  In u (users w) ->
  User.resetToken u = Some (params_token req) ->
  User.tokenExpiration u = Some expiry ->
  now env < expiry ->
  exists found,
    find (matches (WhereResetToken (params_token req) (now env))) (users w)
    = Some found
    /\ ResetPassword env req w
       = ({| users := updateRows (User.userid found) (passwordReset (Some p))
                        (users w);
             nextId := nextId w;
             session := session w;
             calls := calls w
                      ++ [StoreFindOne
                            (WhereResetToken (params_token req) (now env));
                          StoreUpdate (User.userid found)] |},
          Returned
            (respond 200 []
               {| statusCode := 200; data := JObj [];
                  message := "Password reset successfully" |}))
    /\ In (User.apply (passwordReset (Some p)) found)
          (users (fst (ResetPassword env req w)))
    /\ forall v, In v (users w) -> User.userid v <> User.userid found ->
         In v (users (fst (ResetPassword env req w))).
Proof.
  intros Ep Hp Hin Htok Hexp Hlt.
  destruct (find_In_some
              (matches (WhereResetToken (params_token req) (now env)))
              _ _ Hin) as [found Hfound].
  { apply matches_token. split; [exact Htok|]. eauto. }
  exists found. split; [exact Hfound|].
  assert (Hpw : validatePassword (body_newPassword (req_body req)) = true)
    by now rewrite Ep.
  rewrite (reset_valid env req w Hpw). cbv zeta. rewrite Hfound, Ep.
  cbn [fst users]. split; [reflexivity|]. split.
  - apply find_some in Hfound. now apply updateRows_In.
  - intros v Hv Hid. now apply updateRows_other.
Qed.

(** * The further properties on sample runs *)

Lemma tokens_well_formed_witness :
  reachable pendingReset
  /\ map User.resetToken (users pendingReset) = [Some "a10bc3"; None]
  /\ Forall tokenWellFormed (users pendingReset).
Proof.
  assert (Hreach : reachable pendingReset).
  { exact (reachable_handle Forgot (envAt 1000) registerAlice _
             (reachable_handle Register (envAt 200)
                (request (credentials "c@d.org" "Efgh2?") "") _
                (reachable_handle Register (envAt 100)
                   (request (credentials "a@b.com" "Abcd1!") "") _
                   reachable_initial))). }
  split; [exact Hreach|]. split; [reflexivity|].
  apply Forall_forall. exact (tokens_well_formed pendingReset Hreach).
Defined.

Lemma stored_fields_valid_witness :
  reachable twoUsers
  /\ map User.email (users twoUsers) = ["a@b.com"; "c@d.org"]
  /\ Forall fieldsValid (users twoUsers).
Proof.
  assert (Hreach : reachable twoUsers).
  { exact (reachable_handle Register (envAt 200)
             (request (credentials "c@d.org" "Efgh2?") "") _
             (reachable_handle Register (envAt 100)
                (request (credentials "a@b.com" "Abcd1!") "") _
                reachable_initial)). }
  split; [exact Hreach|]. split; [reflexivity|].
  apply Forall_forall. exact (stored_fields_valid twoUsers Hreach).
Defined.

Lemma register_not_rolled_back_witness :
  sessionError failingSession = Some "session store unavailable"
  /\ snd (PassportRegister failingSession registerEve twoUsers)
     = Threw (Error "session store unavailable")
  /\ PassportRegister (envAt 400) registerEve
       (fst (PassportRegister failingSession registerEve twoUsers))
     = (logged [StoreFindOne (WhereEmail "e@f.net")]
          (fst (PassportRegister failingSession registerEve twoUsers)),
        Threw (ApiError 409 (Some "User already exists."))).
Proof.
  split; [reflexivity|].
  destruct (register_not_rolled_back failingSession registerEve twoUsers
              "e@f.net" "session store unavailable"
              eq_refl eq_refl eq_refl eq_refl eq_refl)
    as (Hthrown & _ & Hretry).
  split; [exact Hthrown|exact (Hretry (envAt 400))].
Defined.

Lemma login_validation_order_witness :
  PassportLogIn (envAt 300) noEmail twoUsers
  = (twoUsers, Threw (ApiError 400 (Some "email is required.")))
  /\ PassportLogIn (envAt 300) badEmail twoUsers
     = (twoUsers, Threw (ApiError 400 (Some "Invalid email format."))).
Proof.
  pose proof (login_validation_order (envAt 300) noEmail twoUsers) as H1.
  pose proof (login_validation_order (envAt 300) badEmail twoUsers) as H2.
  cbv zeta in H1, H2. split.
  - apply (proj1 H1); reflexivity.
  - apply (proj1 (proj2 H2)); reflexivity.
Defined.

Lemma login_succeeds_witness :
  credentialsValid (req_body loginAlice) = true
  /\ exists w' r,
       PassportLogIn (envAt 300) loginAlice twoUsers = (w', Returned r)
       /\ status r = 200
       /\ userId (session w') = Some 1
       /\ users w' = users twoUsers.
Proof.
  split; [reflexivity|].
  do 2 eexists. split.
  - exact (login_succeeds (envAt 300) loginAlice twoUsers "a@b.com" "Abcd1!"
             (User.make 1 "a@b.com" "Abcd1!" "user" "+919876543210" None None)
             (User.make 1 "a@b.com" "Abcd1!" "user" "+919876543210" None None)
             eq_refl eq_refl eq_refl eq_refl eq_refl eq_refl eq_refl).
  - repeat split.
Defined.

Lemma login_failures_after_checks_witness :
  PassportLogIn brokenStrategy loginAlice twoUsers
  = (logged [Authenticate "a@b.com" "Abcd1!"] twoUsers,
     Threw (Error "database unavailable"))
  /\ snd (PassportLogIn staleStrategy loginAlice twoUsers)
     = Threw (ApiError 404 (Some "User not found."))
  /\ snd (PassportLogIn failingLogin loginAlice twoUsers)
     = Threw (Error "serialization failed").
Proof.
  split; [|split].
  - exact (proj1 (login_failures_after_checks brokenStrategy loginAlice twoUsers
                    "a@b.com" "Abcd1!" eq_refl eq_refl eq_refl)
             "database unavailable" eq_refl).
  - exact (proj1 (proj1 (proj2 (login_failures_after_checks staleStrategy
                                  loginAlice twoUsers "a@b.com" "Abcd1!"
                                  eq_refl eq_refl eq_refl))
                    (User.make 9 "gone@b.com" "Abcd1!" "user" "+919876543210"
                       None None)
                    eq_refl eq_refl eq_refl)).
  - exact (proj1 (proj2 (proj2 (login_failures_after_checks failingLogin
                                  loginAlice twoUsers "a@b.com" "Abcd1!"
                                  eq_refl eq_refl eq_refl))
                    (User.make 1 "a@b.com" "Abcd1!" "user" "+919876543210"
                       None None)
                    (User.make 1 "a@b.com" "Abcd1!" "user" "+919876543210"
                       None None)
                    "serialization failed" eq_refl eq_refl eq_refl eq_refl)).
Defined.

Lemma forgot_mail_failure_keeps_token_witness :
  mailError failingMail = Some "smtp unavailable"
  /\ snd (ForgotPassword failingMail registerAlice twoUsers)
     = Threw (Error "smtp unavailable")
  /\ exists w2 r,
       ResetPassword (envAt 2000) resetRequest
         (fst (ForgotPassword failingMail registerAlice twoUsers))
       = (w2, Returned r)
       /\ status r = 200.
Proof.
  split; [reflexivity|].
  pose proof (forgot_mail_failure_keeps_token failingMail (envAt 2000)
                registerAlice resetRequest twoUsers "a@b.com" "smtp unavailable"
                (User.make 1 "a@b.com" "Abcd1!" "user" "+919876543210" None None)
                eq_refl eq_refl eq_refl eq_refl) as H.
  cbv zeta in H. destruct H as (Hthrown & _ & Hreset).
  split; [exact Hthrown|].
  apply Hreset; [reflexivity|reflexivity|cbn; lia].
Defined.

Lemma forgot_twice_overwrites_witness :
  validateEmail (Some "a@b.com") = true
  /\ users (fst (ForgotPassword (envAt 2000) registerAlice pendingReset))
     = users (fst (ForgotPassword (envAt 2000) registerAlice twoUsers))
  /\ map User.tokenExpiration
       (users (fst (ForgotPassword (envAt 2000) registerAlice pendingReset)))
     = [Some 3602000; None].
Proof.
  split; [reflexivity|]. split; [|reflexivity].
  exact (forgot_twice_overwrites (envAt 1000) (envAt 2000) registerAlice
           registerAlice twoUsers "a@b.com" eq_refl eq_refl eq_refl).
Defined.

Lemma reset_refusal_changes_nothing_witness :
  snd (ResetPassword (envAt 3000) (request (newPasswordBody "Newp1!") "ffffff")
         pendingReset)
  = Threw (ApiError 400 (Some "Invalid or expired reset token."))
  /\ users (fst (ResetPassword (envAt 3000)
                   (request (newPasswordBody "Newp1!") "ffffff") pendingReset))
     = users pendingReset
  /\ map User.resetToken
       (users (fst (ResetPassword (envAt 3000)
                      (request (newPasswordBody "abc") "a10bc3") pendingReset)))
     = [Some "a10bc3"; None].
Proof.
  split; [reflexivity|]. split.
  - exact (proj1 (reset_refusal_changes_nothing (envAt 3000)
                    (request (newPasswordBody "Newp1!") "ffffff") pendingReset
                    (Some "Invalid or expired reset token.") eq_refl)).
  - rewrite (proj1 (reset_refusal_changes_nothing (envAt 3000)
                      (request (newPasswordBody "abc") "a10bc3") pendingReset
                      (Some weakPasswordMessage) eq_refl)).
    reflexivity.
Defined.

Lemma reset_succeeds_witness :
  validatePassword (Some "Newp1!") = true
  /\ exists found,
       find (matches (WhereResetToken "a10bc3" 3000)) (users pendingReset)
       = Some found
       /\ User.email found = "a@b.com"
       /\ snd (ResetPassword (envAt 3000) resetRequest pendingReset)
          = Returned
              (respond 200 []
                 {| statusCode := 200; data := JObj [];
                    message := "Password reset successfully" |}).
Proof.
  split; [reflexivity|].
  destruct (reset_succeeds (envAt 3000) resetRequest pendingReset "Newp1!"
              (User.make 1 "a@b.com" "Abcd1!" "user" "+919876543210"
                 (Some "a10bc3") (Some 3601000))
              3601000 eq_refl eq_refl)
    as (found & Hfound & Hrun & _).
  - left. reflexivity.
  - reflexivity.
  - reflexivity.
  - cbn. lia.
  - exists found. split; [exact Hfound|].
    split.
    + vm_compute in Hfound. injection Hfound as <-. reflexivity.
    + rewrite Hrun. reflexivity.
Defined.
